(** * The Swarms API client ([api_call.py]): retry and credential policy

    A shallow embedding of the class [SwarmsAPIClient] and proofs of the
    properties its specification states about it.

    The client is sequential Python code that mutates its own fields
    ([api_key], [user_id]) and talks to the world through three calls:
    [requests.post], [time.sleep] and [random.randint].  It is embedded in
    a state-and-exception monad over the pair (client, world):
    - the client is a record of the instance attributes;
    - the world holds the scripted outcomes of the future [requests.post]
      calls, the source of random numbers, and the trace of what the client
      has done so far (requests posted, seconds slept).
    Console output ([print], [_debug_print]) influences neither the control
    flow nor the service and is not recorded. *)

From stdpp Require Import base gmap strings pretty list.
From Stdlib Require Import ZArith Lia.

Set Warnings "-register-all".
Open Scope Z_scope.

(** ** Python values

    What [response.json()] can produce, and hence what the [Dict[str, Any]]
    results, the stored credential and the request bodies are made of.
    [None] is JSON's [null]; a float is kept as the decimal
    [mantissa * 10 ^ exponent] of its literal. *)

Inductive pyval : Type :=
  | PNone
  | PBool (b : bool)
  | PInt (n : Z)
  | PFloat (mantissa exponent : Z)
  | PStr (s : string)
  | PList (l : list pyval)
  | PDict (d : gmap string pyval).

(** Truth value of an object, as tested by [if not x]. *)
Definition truthy (v : pyval) : bool :=
  match v with
  | PNone => false
  | PBool b => b
  | PInt n => negb (n =? 0)
  | PFloat m _ => negb (m =? 0)
  | PStr s => negb (String.eqb s "")
  | PList l => match l with [] => false | _ => true end
  | PDict d => match map_to_list d with [] => false | _ => true end
  end.

Definition type_name (v : pyval) : string :=
  match v with
  | PNone => "NoneType"
  | PBool _ => "bool"
  | PInt _ => "int"
  | PFloat _ _ => "float"
  | PStr _ => "str"
  | PList _ => "list"
  | PDict _ => "dict"
  end.

(** ** Exceptions *)

Inductive exn_class : Type :=
  | Exception
  | ValueError
  | TypeError
  | AttributeError
  | JSONDecodeError          (* json.JSONDecodeError *)
  | RequestsJSONDecodeError  (* requests.exceptions.JSONDecodeError: both *)
  | RequestException         (* requests.exceptions.RequestException *)
  | ConnectionError
  | ReadTimeout.

(** [isinstance(e, json.JSONDecodeError)] *)
Definition is_JSONDecodeError (k : exn_class) : bool :=
  match k with
  | JSONDecodeError | RequestsJSONDecodeError => true
  | _ => false
  end.

(** [isinstance(e, requests.exceptions.RequestException)] *)
Definition is_RequestException (k : exn_class) : bool :=
  match k with
  | RequestsJSONDecodeError | RequestException | ConnectionError
  | ReadTimeout =>
      true
  | _ => false
  end.

(** An exception object: its class, its message [str(e)], and the exception
    that was being handled when it was raised ([__context__]). *)
Inductive exn : Type :=
  | Exn (cls : exn_class) (msg : string) (context : option exn).

Definition exn_cls (e : exn) : exn_class := let 'Exn k _ _ := e in k.
Definition str (e : exn) : string := let 'Exn _ m _ := e in m.
Definition exn_context (e : exn) : option exn := let 'Exn _ _ c := e in c.

Inductive result (A : Type) : Type :=
  | Raise (e : exn)
  | Ok (a : A).
Arguments Raise {A} e.
Arguments Ok {A} a.

(** ** Operations on Python values used by the client *)

Definition no_attribute (v : pyval) (attr : string) : exn :=
  Exn AttributeError
      ("'" +:+ type_name v +:+ "' object has no attribute '" +:+ attr +:+ "'")
      None.

(** [v.get(key, default)] *)
Definition py_get (v : pyval) (key : string) (dflt : pyval) : result pyval :=
  match v with
  | PDict d => Ok (default dflt (d !! key))
  | _ => Raise (no_attribute v "get")
  end.

Definition is_str (s : string) (v : pyval) : bool :=
  match v with
  | PStr s' => String.eqb s s'
  | _ => false
  end.

(** [key in v] for a string [key] *)
Definition py_contains (key : string) (v : pyval) : result bool :=
  match v with
  | PDict d => Ok (bool_decide (is_Some (d !! key)))
  | PList l => Ok (existsb (is_str key) l)
  | PStr s => Ok (bool_decide (is_Some (String.index 0 key s)))
  | _ =>
      Raise (Exn TypeError
               ("argument of type '" +:+ type_name v +:+ "' is not iterable")
               None)
  end.

(** [v.startswith(p)] *)
Definition py_startswith (v : pyval) (p : string) : result bool :=
  match v with
  | PStr s => Ok (String.prefix p s)
  | _ => Raise (no_attribute v "startswith")
  end.

(** A Python [str] is a sequence of code points; a [string] here is its
    UTF-8 encoding.  The white space of [str.isspace], which [str.strip]
    removes, is
    - U+0009..U+000D and U+001C..U+0020, one byte each;
    - U+0085 and U+00A0, the two bytes C2 85 and C2 A0;
    - U+1680 (E1 9A 80), U+2000..U+200A (E2 80 80..8A), U+2028 and U+2029
      (E2 80 A8, E2 80 A9), U+202F (E2 80 AF), U+205F (E2 81 9F) and U+3000
      (E3 80 80), three bytes each. *)
Definition byte (a : Ascii.ascii) : Z := Z.of_N (Ascii.N_of_ascii a).

Definition is_space (a : Ascii.ascii) : bool :=
  let n := byte a in
  ((9 <=? n) && (n <=? 13)) || ((28 <=? n) && (n <=? 32)).

Definition is_space2 (a b : Ascii.ascii) : bool :=
  (byte a =? 194) && ((byte b =? 133) || (byte b =? 160)).

Definition is_space3 (a b c : Ascii.ascii) : bool :=
  let x := byte a in
  let y := byte b in
  let z := byte c in
  ((x =? 225) && (y =? 154) && (z =? 128))
  || ((x =? 226) && (y =? 128)
      && (((128 <=? z) && (z <=? 138)) || (z =? 168) || (z =? 169)
          || (z =? 175)))
  || ((x =? 226) && (y =? 129) && (z =? 159))
  || ((x =? 227) && (y =? 128) && (z =? 128)).

(** Dropping the white space at the front of [s], the two- and three-byte
    characters being recognised by [sp2] and [sp3]. *)
Fixpoint strip_front (sp2 : Ascii.ascii -> Ascii.ascii -> bool)
    (sp3 : Ascii.ascii -> Ascii.ascii -> Ascii.ascii -> bool) (s : string) :
    string :=
  match s with
  | String a s1 =>
      if is_space a then strip_front sp2 sp3 s1
      else
        match s1 with
        | String b s2 =>
            if sp2 a b then strip_front sp2 sp3 s2
            else
              match s2 with
              | String c s3 =>
                  if sp3 a b c then strip_front sp2 sp3 s3 else s
              | EmptyString => s
              end
        | EmptyString => s
        end
  | EmptyString => EmptyString
  end.

(** [s.lstrip()] *)
Definition lstrip (s : string) : string := strip_front is_space2 is_space3 s.

(** [s.rstrip()]: the same from the back, where the bytes of a character
    come in reverse. *)
Definition rstrip (s : string) : string :=
  String.rev
    (strip_front (fun b a => is_space2 a b) (fun c b a => is_space3 a b c)
       (String.rev s)).

(** [s.strip()] *)
Definition strip (s : string) : string := rstrip (lstrip s).

(** [v.strip()] *)
Definition py_strip (v : pyval) : result string :=
  match v with
  | PStr s => Ok (strip s)
  | _ => Raise (no_attribute v "strip")
  end.

(** [range(n)] *)
Definition range (n : Z) : list Z := Z.of_nat <$> seq 0 (Z.to_nat n).

(** ** The client, the service and the world *)

Record client : Type := Client {
  base_url : string;
  api_key : pyval;
  openai_api_key : pyval;
  user_id : pyval;
  debug : bool
}.

Record request : Type := Request {
  endpoint : string;
  headers : list (string * pyval);
  body : pyval
}.

(** A [requests.Response], as far as the client inspects it: the status
    code, the raw text (empty exactly when [response.content] is), and what
    [response.json()] does on it. *)
Record response : Type := Response {
  status_code : Z;
  text : string;
  json : result pyval
}.

(** What one [requests.post] call does: it raises or it returns a response. *)
Inductive outcome : Type :=
  | Fails (e : exn)
  | Reply (r : response).

Inductive event : Type :=
  | Posted (r : request)
  | Slept (seconds : Z).

Record world : Type := World {
  script : list outcome;     (* outcomes of the requests.post calls to come *)
  entropy : nat -> Z;        (* the random source *)
  draws : nat;               (* how many random numbers were drawn *)
  trace : list event         (* what the client did, oldest first *)
}.

(** ** The monad of methods *)

Definition M (A : Type) : Type := client -> world -> result A * client * world.

Definition ret {A} (a : A) : M A := fun c w => (Ok a, c, w).

Definition bind {A B} (m : M A) (f : A -> M B) : M B :=
  fun c w =>
    match m c w with
    | (Ok a, c', w') => f a c' w'
    | (Raise e, c', w') => (Raise e, c', w')
    end.

#[global] Instance M_ret : MRet M := @ret.
#[global] Instance M_bind : MBind M := fun A B f m => bind m f.

Definition raise {A} (e : exn) : M A := fun c w => (Raise e, c, w).

(** [try: m  except Exception as e: h e] *)
Definition try_except {A} (m : M A) (h : exn -> M A) : M A :=
  fun c w =>
    match m c w with
    | (Ok a, c', w') => (Ok a, c', w')
    | (Raise e, c', w') => h e c' w'
    end.

Definition lift {A} (r : result A) : M A := fun c w => (r, c, w).

Definition self : M client := fun c w => (Ok c, c, w).

Definition set_api_key (v : pyval) : M unit :=
  fun c w =>
    (Ok tt, Client (base_url c) v (openai_api_key c) (user_id c) (debug c), w).

Definition set_user_id (v : pyval) : M unit :=
  fun c w =>
    (Ok tt, Client (base_url c) (api_key c) (openai_api_key c) v (debug c), w).

Definition log (e : event) (w : world) : world :=
  World (script w) (entropy w) (draws w) (trace w ++ [e]).

Definition script_exhausted : exn :=
  Exn ConnectionError "Connection aborted." None.

(** [requests.post(endpoint, headers=headers, json=body)]: the call is
    recorded and the next scripted outcome happens.  A service whose script
    has run out no longer answers. *)
Definition requests_post (ep : string) (hs : list (string * pyval))
    (b : pyval) : M response :=
  fun c w =>
    let w' := log (Posted (Request ep hs b)) w in
    match script w with
    | [] => (Raise script_exhausted, c, w')
    | Fails e :: rest =>
        (Raise e, c, World rest (entropy w') (draws w') (trace w'))
    | Reply r :: rest =>
        (Ok r, c, World rest (entropy w') (draws w') (trace w'))
    end.

(** [time.sleep(seconds)] *)
Definition time_sleep (seconds : Z) : M unit :=
  fun c w => (Ok tt, c, log (Slept seconds) w).

(** [random.randint(lo, hi)]: some integer of [lo..hi]. *)
Definition random_randint (lo hi : Z) : M Z :=
  fun c w =>
    (Ok (lo + entropy w (draws w) `mod` (hi - lo + 1)), c,
     World (script w) (entropy w) (S (draws w)) (trace w)).

(** ** The loops: [for attempt in range(n)] with [continue] and [return] *)

Inductive flow : Type :=
  | Continue             (* go to the next iteration *)
  | Return (v : pyval).  (* leave the method with this value *)

(** A method that falls off its loop returns [None]. *)
Fixpoint for_each (attempts : list Z) (body : Z -> M flow) : M pyval :=
  match attempts with
  | [] => ret PNone
  | attempt :: later =>
      bind (body attempt) (fun f =>
        match f with
        | Continue => for_each later body
        | Return v => ret v
        end)
  end.

(** ** [SwarmsAPIClient] *)

(** [__init__]: [getenv] is what [os.getenv('OPENAI_API_KEY')] returns. *)
Definition init (getenv : option string) (url : string) (dbg : bool) :
    result client :=
  let key := from_option PStr PNone getenv in
  if negb (truthy key) then
    Raise (Exn ValueError "OPENAI_API_KEY environment variable is not set."
             None)
  else Ok (Client url key key PNone dbg).

Definition json_headers : list (string * pyval) :=
  [("Content-Type", PStr "application/json");
   ("Accept", PStr "application/json")].

(** [_handle_response(response, operation)].  The exception for an empty
    body is raised inside the [try] but is of neither handled class, so it
    leaves the method as it is. *)
Definition _handle_response (r : response) (operation : string) :
    result pyval :=
  if status_code r =? 204 then Ok (PDict ∅)
  else if String.eqb (text r) "" then
    Raise (Exn Exception ("Empty response received from " +:+ operation) None)
  else
    match json r with
    | Ok v => Ok v
    | Raise e =>
        if is_JSONDecodeError (exn_cls e) then
          Raise (Exn Exception
                   ("Invalid JSON response from " +:+ operation +:+ ": "
                    +:+ str e +:+ "
Raw response: " +:+ text r)
                   (Some e))
        else if is_RequestException (exn_cls e) then
          Raise (Exn Exception
                   ("Request failed during " +:+ operation +:+ ": " +:+ str e)
                   (Some e))
        else Raise e
    end.

Definition user_creation_failed (e : exn) : exn :=
  Exn Exception ("Failed to create user: " +:+ str e) (Some e).

Definition create_user (username : string) : M pyval :=
  me ← self;
  let endpoint := base_url me +:+ "/users" in
  let headers := json_headers in
  let body := PDict {[ "username" := PStr username ]} in
  try_except
    (response ← requests_post endpoint headers body;
     result ← lift (_handle_response response "User creation");
     key ← lift (py_get result "api_key" PNone);
     set_api_key key;;
     uid ← lift (py_get result "user_id" PNone);
     set_user_id uid;;
     ret result)
    (fun e => raise (user_creation_failed e)).

Definition api_key_creation_failed (e : exn) : exn :=
  Exn Exception ("Failed to create API key: " +:+ str e) (Some e).

Definition create_api_key (user_id : string) : M pyval :=
  me ← self;
  let endpoint := base_url me +:+ "/users/" +:+ user_id +:+ "/api-keys" in
  let headers := ("api-key", api_key me) :: json_headers in
  let body := PDict {[ "name" := PStr "new_api_key" ]} in
  try_except
    (response ← requests_post endpoint headers body;
     result ← lift (_handle_response response "API key creation");
     ret result)
    (fun e => raise (api_key_creation_failed e)).

Definition max_attempts : Z := 3.

Definition no_api_key_for_agent : exn :=
  Exn Exception "No API key available. Create a user first." None.
Definition api_key_remains_invalid : exn :=
  Exn Exception "API Key remains invalid after multiple attempts." None.
Definition no_agent_id : exn :=
  Exn Exception "Agent creation failed; no agent_id in response." None.

Definition agent_config (agent_name system_prompt model_name : string)
    (temperature : pyval) : pyval :=
  PDict (list_to_map
    [("agent_name", PStr agent_name);
     ("model_name", PStr model_name);
     ("description", PStr "API-created agent");
     ("system_prompt", PStr system_prompt);
     ("temperature", temperature);
     ("max_loops", PInt 1);
     ("autosave", PBool true);
     ("dashboard", PBool false);
     ("verbose", PBool true);
     ("dynamic_temperature_enabled", PBool true);
     ("user_name", PStr "default_user");
     ("retry_attempts", PInt 1);
     ("context_length", PInt 200000);
     ("output_type", PStr "string");
     ("streaming_on", PBool false);
     ("tags", PList [PStr "api_created"])]).

(** One iteration of the loop of [create_agent]. *)
Definition create_agent_attempt (agent_name system_prompt model_name : string)
    (temperature : pyval) (attempt : Z) : M flow :=
  me ← self;
  if negb (truthy (api_key me)) then raise no_api_key_for_agent
  else
    let endpoint := base_url me +:+ "/agent" in
    key ← lift (py_strip (api_key me));
    let headers := ("api-key", PStr key) :: json_headers in
    let config := agent_config agent_name system_prompt model_name temperature in
    try_except
      (response ← requests_post endpoint headers config;
       result ← lift (_handle_response response "Agent creation");
       found ← lift (py_contains "agent_id" result);
       if negb found then
         if status_code response =? 401 then
           if attempt <? max_attempts - 1 then
             n ← random_randint 1000 9999;
             let new_username := "user_" +:+ pretty n in
             create_user new_username;;
             ret Continue
           else raise api_key_remains_invalid
         else raise no_agent_id
       else ret (Return result))
      (fun e =>
         if attempt =? max_attempts - 1 then raise e
         else ret Continue).

Definition create_agent_loop (agent_name system_prompt model_name : string)
    (temperature : pyval) (attempts : list Z) : M pyval :=
  for_each attempts
    (create_agent_attempt agent_name system_prompt model_name temperature).

Definition create_agent (agent_name system_prompt model_name : string)
    (temperature : pyval) : M pyval :=
  create_agent_loop agent_name system_prompt model_name temperature
    (range max_attempts).

Definition no_api_key_for_completion : exn :=
  Exn Exception "No API key available. Ensure a user is created." None.
Definition agent_still_not_found (agent_id : string) : exn :=
  Exn Exception ("Agent " +:+ agent_id +:+ " still not found after retries.")
    None.

Definition not_found_signature : string := "Error processing completion: 404".
Definition retry_delay : Z := 5.

(** One iteration of the loop of [generate_completion]. *)
Definition generate_completion_attempt (endpoint : string)
    (headers : list (string * pyval)) (body : pyval) (agent_id : string)
    (max_retries attempt : Z) : M flow :=
  try_except
    (response ← requests_post endpoint headers body;
     result ← lift (_handle_response response "Completion generation");
     detail ← lift (py_get result "detail" (PStr ""));
     not_found ← lift (py_startswith detail not_found_signature);
     if (not_found : bool) then
       if attempt <? max_retries - 1 then
         time_sleep retry_delay;;
         ret Continue
       else raise (agent_still_not_found agent_id)
     else ret (Return result))
    (fun e =>
       if attempt =? max_retries - 1 then raise e
       else
         time_sleep retry_delay;;
         ret Continue).

Definition generate_completion_loop (endpoint : string)
    (headers : list (string * pyval)) (body : pyval) (agent_id : string)
    (max_retries : Z) (attempts : list Z) : M pyval :=
  for_each attempts
    (generate_completion_attempt endpoint headers body agent_id max_retries).

Definition generate_completion (api_key' agent_id prompt : string)
    (max_retries : Z) : M pyval :=
  me ← self;
  if negb (truthy (api_key me)) then raise no_api_key_for_completion
  else
    let endpoint := base_url me +:+ "/agent/completions" in
    let headers :=
      ("api-key", PStr (strip api_key')) :: json_headers
      ++ [("OpenAI-API-Key", openai_api_key me)] in
    let body :=
      PDict (list_to_map [("prompt", PStr prompt); ("agent_id", PStr agent_id)])
    in
    generate_completion_loop endpoint headers body agent_id max_retries
      (range max_retries).

(** ** Reading the trace *)

Definition is_post_to (url : string) (e : event) : bool :=
  match e with
  | Posted r => String.eqb (endpoint r) url
  | Slept _ => false
  end.

(** How many requests went to [url]. *)
Definition posts_to (url : string) (t : list event) : nat :=
  length (List.filter (is_post_to url) t).

(** The pauses the caller sat through, in order. *)
Definition delays (t : list event) : list Z :=
  omap (fun e => match e with Slept s => Some s | Posted _ => None end) t.

Definition agent_url (c : client) : string := base_url c +:+ "/agent".
Definition users_url (c : client) : string := base_url c +:+ "/users".

(** The world once the request [q] has been posted and the script has moved
    on to [rest]. *)
Definition after_post (q : request) (rest : list outcome) (w : world) : world :=
  World rest (entropy w) (draws w) (trace w ++ [Posted q]).

(** The requests the methods build. *)
Definition user_request (c : client) (username : string) : request :=
  Request (users_url c) json_headers (PDict {[ "username" := PStr username ]}).

Definition api_key_request (c : client) (uid : string) : request :=
  Request (base_url c +:+ "/users/" +:+ uid +:+ "/api-keys")
    (("api-key", api_key c) :: json_headers)
    (PDict {[ "name" := PStr "new_api_key" ]}).

Definition agent_request (c : client)
    (agent_name system_prompt model_name : string) (temperature : pyval)
    (key : string) : request :=
  Request (agent_url c) (("api-key", PStr (strip key)) :: json_headers)
    (agent_config agent_name system_prompt model_name temperature).

Definition completion_request (c : client) (key agent_id prompt : string) :
    request :=
  Request (base_url c +:+ "/agent/completions")
    (("api-key", PStr (strip key)) :: json_headers
     ++ [("OpenAI-API-Key", openai_api_key c)])
    (PDict (list_to_map [("prompt", PStr prompt); ("agent_id", PStr agent_id)])).

(** The value of a header of a request, if it is there. *)
Definition header (name : string) (q : request) : option pyval :=
  snd <$> List.find (fun h => String.eqb (fst h) name) (headers q).

(** The client after [create_user] has stored the fields of the body [d]. *)
Definition with_credentials (c : client) (d : gmap string pyval) : client :=
  Client (base_url c) (default PNone (d !! "api_key")) (openai_api_key c)
    (default PNone (d !! "user_id")) (debug c).

(** The user name [create_agent] makes up next, and the world once the
    random number for it has been drawn. *)
Definition new_username (w : world) : string :=
  "user_" +:+ pretty (1000 + entropy w (draws w) `mod` (9999 - 1000 + 1)).

Definition drew (w : world) : world :=
  World (script w) (entropy w) (S (draws w)) (trace w).

(** What the [except] clause of the loop of [create_agent] makes of [e]. *)
Definition swallowed_unless_last (attempt : Z) (e : exn) : result flow :=
  if attempt =? max_attempts - 1 then Raise e else Ok Continue.

(** ** Classes of responses *)

(** The response parses and the parsed body has no ['agent_id']. *)
Definition lacks_agent_id (r : response) : bool :=
  match _handle_response r "Agent creation" with
  | Ok v => match py_contains "agent_id" v with
            | Ok found => negb found
            | Raise _ => false
            end
  | Raise _ => false
  end.

(** An authentication rejection of an agent creation. *)
Definition unauthorized (r : response) : bool :=
  (status_code r =? 401) && lacks_agent_id r.

(** The credential a user-creation response installs, when it is a
    non-empty string. *)
Definition issued_key (r : response) : option string :=
  match _handle_response r "User creation" with
  | Ok (PDict d) =>
      match d !! "api_key" with
      | Some (PStr k) => if String.eqb k "" then None else Some k
      | _ => None
      end
  | _ => None
  end.

(** A completion body is well formed when it is a JSON object whose
    [detail], if it has one, is text. *)
Definition well_formed_completion (v : pyval) : bool :=
  match v with
  | PDict d => match d !! "detail" with
               | None | Some (PStr _) => true
               | Some _ => false
               end
  | _ => false
  end.

(** The body carries the not-found signature in its [detail]. *)
Definition has_not_found_signature (v : pyval) : bool :=
  match v with
  | PDict d => match d !! "detail" with
               | Some (PStr s) => String.prefix not_found_signature s
               | _ => false
               end
  | _ => false
  end.

(** A completion response that parses to a body with the signature. *)
Definition agent_not_found (r : response) : bool :=
  match _handle_response r "Completion generation" with
  | Ok v => has_not_found_signature v
  | Raise _ => false
  end.

(** ** Sample data *)

Definition client0 : client :=
  Client "https://api.swarms.ai/v1" (PStr "sk-0") (PStr "sk-0") PNone true.

Definition world_of (l : list outcome) : world :=
  World l (fun n => Z.of_nat n) 0%nat [].

Definition json_reply (status : Z) (fields : list (string * pyval)) : response :=
  Response status "{...}" (Ok (PDict (list_to_map fields))).

Definition reply_401 : response :=
  json_reply 401 [("detail", PStr "Invalid API key")].
Definition reply_user (key uid : string) : response :=
  json_reply 200 [("api_key", PStr key); ("user_id", PStr uid)].
Definition reply_agent : response :=
  json_reply 200 [("agent_id", PStr "agent-1"); ("agent_name", PStr "Agent_x")].
Definition reply_not_found : response :=
  json_reply 200
    [("detail", PStr "Error processing completion: 404: Agent agent-1 not found")].
Definition reply_completion (answer : string) : response :=
  json_reply 200 [("response", PStr answer); ("metadata", PDict ∅)].
Definition reply_error (status : Z) (detail : string) : response :=
  json_reply status [("detail", PStr detail)].
Definition connection_refused : exn :=
  Exn ConnectionError "Connection refused" None.
(** U+00A0 (no-break space) and U+2003 (em space), in UTF-8. *)
Definition nbsp : string :=
  String (Ascii.ascii_of_nat 194) (String (Ascii.ascii_of_nat 160) "").
Definition em_space : string :=
  String (Ascii.ascii_of_nat 226)
    (String (Ascii.ascii_of_nat 128) (String (Ascii.ascii_of_nat 131) "")).

Definition read_timed_out : exn := Exn ReadTimeout "Read timed out." None.
Definition connection_reset : exn :=
  Exn ConnectionError "Connection reset by peer" None.

(** Two rejections, each followed by a successful re-provisioning, then
    [last]. *)
Definition script_reprovision (last : response) : list outcome :=
  [Reply reply_401; Reply (reply_user "sk-1" "u-1");
   Reply reply_401; Reply (reply_user "sk-2" "u-2"); Reply last].

(** ** Vocabulary of the further properties *)

(** An outcome on which an attempt of [generate_completion] fails: the post
    raises, or the answer carries the not-found signature. *)
Definition failing (o : outcome) : bool :=
  match o with
  | Fails _ => true
  | Reply r => agent_not_found r
  end.

(** What [generate_completion] raises when such an outcome meets its final
    attempt. *)
Definition final_error (agent_id : string) (o : outcome) : exn :=
  match o with
  | Fails e => e
  | Reply _ => agent_still_not_found agent_id
  end.

(** The trace of [n] attempts in a row on the request [q]: a post each, and
    the fixed delay between one and the next. *)
Fixpoint retry_trace (q : request) (n : nat) : list event :=
  match n with
  | O => []
  | S m =>
      match m with
      | O => [Posted q]
      | S _ => Posted q :: Slept retry_delay :: retry_trace q m
      end
  end.

(** The attempts of a loop that are not the last one of [n]. *)
Definition not_last (n : Z) (attempts : list Z) : list Z :=
  List.filter (fun a => negb (a =? n - 1)) attempts.

(** What [startswith] raises on the [detail] of a body, or [get] on a body
    that is not an object. *)
Definition detail_error (v : pyval) : exn :=
  match v with
  | PDict d => no_attribute (default (PStr "") (d !! "detail")) "startswith"
  | _ => no_attribute v "get"
  end.

(** The attempts of the loop of [create_agent] that come before the last. *)
Definition before_last (attempts : list Z) : list Z :=
  List.filter (fun a => a <? max_attempts - 1) attempts.

(** * Proofs *)

(** ** Python values, strings and the trace *)

(** A string is truthy exactly when it is not empty. *)
Lemma truthy_str (k : string) : k ≠ "" → truthy (PStr k) = true.
Proof.
  intros H. simpl. destruct (String.eqb_spec k ""); [contradiction | reflexivity].
Qed.

Lemma truthy_str_inv (k : string) : truthy (PStr k) = true → k ≠ "".
Proof. intros H ->. discriminate H. Qed.

(** A key of a dict is [in] the dict. *)
Lemma dict_contains (d : gmap string pyval) (key : string) :
  is_Some (d !! key) → py_contains key (PDict d) = Ok true.
Proof. intros H. simpl. rewrite bool_decide_eq_true_2; [reflexivity | exact H]. Qed.

(** [strip] removes white space of one, two and three bytes at both ends,
    and only there; a zero-width space (U+200B) is no white space. *)
Lemma strip_examples :
  strip ("  sk-1 	" +:+ "
") = "sk-1"
  ∧ strip (nbsp +:+ "sk-1" +:+ em_space) = "sk-1"
  ∧ strip ("a" +:+ nbsp +:+ "b") = "a" +:+ nbsp +:+ "b"
  ∧ strip (nbsp +:+ " " +:+ em_space) = ""
  ∧ strip (String (Ascii.ascii_of_nat 226)
             (String (Ascii.ascii_of_nat 128)
                (String (Ascii.ascii_of_nat 139) "")))
    = String (Ascii.ascii_of_nat 226)
        (String (Ascii.ascii_of_nat 128) (String (Ascii.ascii_of_nat 139) "")).
Proof. repeat split. Qed.

Lemma range_max_attempts : range max_attempts = [0; 1; 2].
Proof. reflexivity. Qed.

(** Comparing strings with a common beginning. *)
Lemma append_eqb_tail (p s t : string) :
  String.eqb (p +:+ s) (p +:+ t) = String.eqb s t.
Proof.
  induction p as [|a p IH]; simpl; [reflexivity|].
  rewrite Ascii.eqb_refl. exact IH.
Qed.

(** The two endpoints of one client are different URLs. *)
Lemma users_is_not_agent (c : client) :
  String.eqb (users_url c) (agent_url c) = false.
Proof. unfold users_url, agent_url. rewrite append_eqb_tail. reflexivity. Qed.

Lemma agent_is_not_users (c : client) :
  String.eqb (agent_url c) (users_url c) = false.
Proof. unfold users_url, agent_url. rewrite append_eqb_tail. reflexivity. Qed.

(** Counting and pauses go through concatenation. *)
Lemma posts_to_app (url : string) (t u : list event) :
  posts_to url (t ++ u) = (posts_to url t + posts_to url u)%nat.
Proof. unfold posts_to. rewrite List.filter_app, length_app. reflexivity. Qed.

Lemma delays_app (t u : list event) : delays (t ++ u) = delays t ++ delays u.
Proof. unfold delays. apply omap_app. Qed.

(** ** Running a method

    [run] unfolds the monad and the primitives, and nothing else;
    [with_script Hs] replaces the world by its fields, its script being the
    one [Hs] gives. *)
Ltac run :=
  cbv beta iota zeta delta
    [mbind M_bind bind mret M_ret ret raise try_except lift self requests_post
     time_sleep random_randint set_api_key set_user_id log for_each
     script entropy draws trace].

Ltac with_script Hs :=
  match type of Hs with
  | script ?w = _ =>
      destruct w as [?s ?en ?dr ?tr]; simpl in Hs; subst;
      cbn [script entropy draws trace]
  end.

(** Entering an attempt of [create_agent] made with the non-empty string
    credential of [Hk], [Hne], up to the answer of the service. *)
Ltac enter_agent_attempt Hk Hne Hs :=
  unfold agent_request, agent_url, create_agent_attempt;
  try unfold swallowed_unless_last;
  run; rewrite Hk, (truthy_str _ Hne); cbn [negb py_strip]; with_script Hs.

(** One step of a loop. *)
Lemma for_each_cons (a : Z) (later : list Z) (body : Z → M flow) c w :
  for_each (a :: later) body c w =
  match body a c w with
  | (Ok Continue, c', w') => for_each later body c' w'
  | (Ok (Return v), c', w') => (Ok v, c', w')
  | (Raise e, c', w') => (Raise e, c', w')
  end.
Proof.
  cbn [for_each]. unfold bind.
  destruct (body a c w) as [[[e|[|v]] c'] w']; reflexivity.
Qed.

(** ** [create_user], case by case *)

(** The outcomes of [create_user]. *)
Lemma create_user_unfold (username : string) (c : client) (w : world) :
  create_user username c w =
  match script w with
  | [] => (Raise (user_creation_failed script_exhausted), c,
           after_post (user_request c username) [] w)
  | Fails e :: rest =>
      (Raise (user_creation_failed e), c,
       after_post (user_request c username) rest w)
  | Reply r :: rest =>
      let w' := after_post (user_request c username) rest w in
      match _handle_response r "User creation" with
      | Raise e => (Raise (user_creation_failed e), c, w')
      | Ok (PDict d) => (Ok (PDict d), with_credentials c d, w')
      | Ok v => (Raise (user_creation_failed (no_attribute v "get")), c, w')
      end
  end.
Proof.
  unfold create_user, after_post, user_request, users_url, with_credentials.
  destruct w as [s en dr tr]. run.
  destruct s as [|[e|r] rest]; try reflexivity.
  destruct (_handle_response r "User creation") as [e|v]; [reflexivity|].
  destruct v; reflexivity.
Qed.

(** Whatever the service does, [create_user] posts one request to the users
    endpoint and leaves the base URL alone. *)
Lemma create_user_effect (username : string) (c : client) (w : world) :
  ∃ r c',
    create_user username c w
    = (r, c', after_post (user_request c username) (tail (script w)) w)
    ∧ base_url c' = base_url c.
Proof.
  rewrite create_user_unfold.
  destruct (script w) as [|[e|r] rest]; simpl; eauto.
  destruct (_handle_response r "User creation") as [e|v]; eauto.
  destruct v; eauto.
Qed.

(** ** One attempt of [create_agent] *)

Section CreateAgent.
Variables agent_name system_prompt model_name : string.
Variable temperature : pyval.

Local Abbreviation attempt_ :=
  (create_agent_attempt agent_name system_prompt model_name temperature).
Local Abbreviation loop_ :=
  (create_agent_loop agent_name system_prompt model_name temperature).
Local Abbreviation request_ c :=
  (agent_request c agent_name system_prompt model_name temperature).

(** An attempt posts at most one request to the agent endpoint, extends
    the trace, and keeps the base URL. *)
Lemma attempt_posts_at_most_once (attempt : Z) (c : client) (w : world) :
  ∃ evs,
    trace (attempt_ attempt c w).2 = trace w ++ evs
    ∧ (posts_to (agent_url c) evs ≤ 1)%nat
    ∧ base_url (attempt_ attempt c w).1.2 = base_url c.
Proof.
  unfold create_agent_attempt. run.
  destruct (truthy (api_key c)); cbn [negb];
    [| exists []; rewrite app_nil_r; auto ].
  destruct (py_strip (api_key c)) as [e|key];
    [ exists []; rewrite app_nil_r; auto |].
  set (q := Request _ _ _).
  assert (Hq : posts_to (agent_url c) [Posted q] = 1%nat).
  { unfold posts_to. simpl. unfold agent_url. rewrite String.eqb_refl.
    reflexivity. }
  assert (Hq2 : ∀ u,
            posts_to (agent_url c) [Posted q; Posted (user_request c u)] = 1%nat).
  { intros u. unfold posts_to. simpl. rewrite users_is_not_agent.
    unfold agent_url. rewrite String.eqb_refl. reflexivity. }
  (* the cases that end after the one request *)
  assert (Hend : ∀ (x : result flow) s,
            ∃ evs,
              trace (x, c, World s (entropy w) (draws w) (trace w ++ [Posted q])).2
              = trace w ++ evs
              ∧ (posts_to (agent_url c) evs ≤ 1)%nat
              ∧ base_url (x, c, World s (entropy w) (draws w)
                                  (trace w ++ [Posted q])).1.2 = base_url c).
  { intros x s. exists [Posted q]. rewrite Hq. auto. }
  destruct w as [s en dr tr]. cbn [script entropy draws trace] in *.
  destruct s as [|[e|r] rest];
    [ destruct (attempt =? max_attempts - 1); apply Hend .. |].
  destruct (_handle_response r "Agent creation") as [e|v];
    [ destruct (attempt =? max_attempts - 1); apply Hend |].
  destruct (py_contains "agent_id" v) as [e|[|]]; cbn [negb];
    [ destruct (attempt =? max_attempts - 1); apply Hend | apply Hend |].
  destruct (status_code r =? 401);
    [| destruct (attempt =? max_attempts - 1); apply Hend ].
  destruct (attempt <? max_attempts - 1);
    [| destruct (attempt =? max_attempts - 1); apply Hend ].
  (* the re-provisioning case: one more request, to the users endpoint *)
  match goal with
  | |- context [create_user ?u ?c' ?w'] =>
      destruct (create_user_effect u c' w') as (r' & c'' & -> & Hb);
      exists [Posted q; Posted (user_request c u)]
  end.
  rewrite Hq2.
  destruct r' as [e|a]; [destruct (attempt =? max_attempts - 1)|];
    cbn [fst snd after_post trace]; rewrite <- ?app_assoc; auto.
Qed.

(** Hence a loop over [n] attempts posts at most [n] such requests. *)
Lemma loop_posts_bounded (attempts : list Z) (c : client) (w : world) :
  ∃ evs,
    trace (loop_ attempts c w).2 = trace w ++ evs
    ∧ (posts_to (agent_url c) evs ≤ length attempts)%nat.
Proof.
  revert c w. induction attempts as [|a later IH]; intros c w.
  { exists []. rewrite app_nil_r. split; [reflexivity | apply le_n]. }
  destruct (attempt_posts_at_most_once a c w) as (evs & Ht & Hn & Hb).
  unfold create_agent_loop in *. cbn [for_each].
  unfold bind at 1.
  destruct (create_agent_attempt _ _ _ _ a c w) as [[[e|[|v]] c1] w1];
    cbn [fst snd] in *.
  - exists evs. split; [assumption | simpl length; lia].
  - destruct (IH c1 w1) as (evs' & Ht' & Hn').
    exists (evs ++ evs'). rewrite Ht', Ht, app_assoc. split; [reflexivity|].
    rewrite posts_to_app. unfold agent_url in *. rewrite Hb in Hn'. simpl. lia.
  - exists evs. split; [assumption | simpl length; lia].
Qed.

(** What an attempt does, by the answer it gets. *)
Lemma attempt_success (attempt : Z) (c : client) (w : world) k r rest v :
  api_key c = PStr k → k ≠ "" →
  script w = Reply r :: rest →
  _handle_response r "Agent creation" = Ok v →
  py_contains "agent_id" v = Ok true →
  attempt_ attempt c w = (Ok (Return v), c, after_post (request_ c k) rest w).
Proof.
  intros Hk Hne Hs Hh Hc. enter_agent_attempt Hk Hne Hs.
  rewrite Hh, Hc. reflexivity.
Qed.

Lemma attempt_transport_error (attempt : Z) (c : client) (w : world) k e rest :
  api_key c = PStr k → k ≠ "" →
  script w = Fails e :: rest →
  attempt_ attempt c w
  = (swallowed_unless_last attempt e, c, after_post (request_ c k) rest w).
Proof.
  intros Hk Hne Hs. enter_agent_attempt Hk Hne Hs.
  destruct (attempt =? max_attempts - 1); reflexivity.
Qed.

(** The classes of responses, spelled out. *)
Lemma lacks_agent_id_inv (r : response) :
  lacks_agent_id r = true →
  ∃ v, _handle_response r "Agent creation" = Ok v
       ∧ py_contains "agent_id" v = Ok false.
Proof.
  unfold lacks_agent_id.
  destruct (_handle_response r "Agent creation") as [e|v]; [discriminate|].
  destruct (py_contains "agent_id" v) as [e|[|]] eqn:E; try discriminate.
  intros _. eauto.
Qed.

Lemma attempt_malformed (attempt : Z) (c : client) (w : world) k r rest :
  api_key c = PStr k → k ≠ "" →
  script w = Reply r :: rest →
  lacks_agent_id r = true → status_code r ≠ 401 →
  attempt_ attempt c w
  = (swallowed_unless_last attempt no_agent_id, c,
     after_post (request_ c k) rest w).
Proof.
  intros Hk Hne Hs (v & Hh & Hc)%lacks_agent_id_inv Hst. enter_agent_attempt Hk Hne Hs.
  rewrite Hh, Hc. cbn [negb].
  apply Z.eqb_neq in Hst. rewrite Hst.
  destruct (attempt =? max_attempts - 1); reflexivity.
Qed.

Lemma unauthorized_inv (r : response) :
  unauthorized r = true → status_code r = 401 ∧ lacks_agent_id r = true.
Proof.
  unfold unauthorized. intros [H1 H2]%andb_prop. split; [lia | assumption].
Qed.

Lemma attempt_unauthorized_last (c : client) (w : world) k r rest :
  api_key c = PStr k → k ≠ "" →
  script w = Reply r :: rest →
  unauthorized r = true →
  attempt_ (max_attempts - 1) c w
  = (Raise api_key_remains_invalid, c, after_post (request_ c k) rest w).
Proof.
  intros Hk Hne Hs [Hst (v & Hh & Hc)%lacks_agent_id_inv]%unauthorized_inv.
  enter_agent_attempt Hk Hne Hs.
  rewrite Hh, Hc, Hst. reflexivity.
Qed.

Lemma attempt_reprovision (attempt : Z) (c : client) (w : world) k r u rest d :
  api_key c = PStr k → k ≠ "" →
  script w = Reply r :: Reply u :: rest →
  unauthorized r = true →
  attempt < max_attempts - 1 →
  _handle_response u "User creation" = Ok (PDict d) →
  attempt_ attempt c w
  = (Ok Continue, with_credentials c d,
     after_post (user_request c (new_username w)) rest
       (drew (after_post (request_ c k) (Reply u :: rest) w))).
Proof.
  intros Hk Hne Hs [Hst (v & Hh & Hc)%lacks_agent_id_inv]%unauthorized_inv Hlt Hu.
  enter_agent_attempt Hk Hne Hs.
  rewrite Hh, Hc, Hst. cbn [negb Z.eqb Pos.eqb].
  apply Z.ltb_lt in Hlt. rewrite Hlt.
  rewrite create_user_unfold. cbn [script]. rewrite Hu. reflexivity.
Qed.

Lemma issued_key_inv (u : response) (k : string) :
  issued_key u = Some k →
  ∃ d, _handle_response u "User creation" = Ok (PDict d)
       ∧ d !! "api_key" = Some (PStr k) ∧ k ≠ "".
Proof.
  unfold issued_key.
  destruct (_handle_response u "User creation") as [e|[]]; try discriminate.
  destruct (d !! "api_key") as [[]|] eqn:E; try discriminate.
  destruct (String.eqb_spec s ""); [discriminate|].
  intros [= <-]. eauto.
Qed.

(** Two rejected attempts, each re-provisioned, lead to the third attempt
    with the second new credential. *)
Lemma create_agent_reprovisions_twice (c : client) (w : world)
    k r1 u1 r2 u2 (o : outcome) rest k1 k2 :
  api_key c = PStr k → k ≠ "" →
  script w = Reply r1 :: Reply u1 :: Reply r2 :: Reply u2 :: o :: rest →
  unauthorized r1 = true → issued_key u1 = Some k1 →
  unauthorized r2 = true → issued_key u2 = Some k2 →
  ∃ c2 w2 evs,
    create_agent agent_name system_prompt model_name temperature c w
    = match attempt_ 2 c2 w2 with
      | (Ok Continue, c', w') => (Ok PNone, c', w')
      | (Ok (Return v), c', w') => (Ok v, c', w')
      | (Raise e, c', w') => (Raise e, c', w')
      end
    ∧ api_key c2 = PStr k2 ∧ base_url c2 = base_url c
    ∧ script w2 = o :: rest
    ∧ trace w2 = trace w ++ evs
    ∧ posts_to (users_url c) evs = 2%nat
    ∧ posts_to (agent_url c) evs = 2%nat.
Proof.
  intros Hk Hne Hs Hr1 (d1 & Hu1 & Hd1 & Hne1)%issued_key_inv
         Hr2 (d2 & Hu2 & Hd2 & Hne2)%issued_key_inv.
  unfold create_agent, create_agent_loop. rewrite range_max_attempts.
  rewrite for_each_cons.
  rewrite (attempt_reprovision 0 c w k r1 u1 _ d1 Hk Hne Hs Hr1 eq_refl Hu1).
  set (c1 := with_credentials c d1). set (w1 := after_post _ _ _).
  assert (Hk1 : api_key c1 = PStr k1) by (subst c1; simpl; rewrite Hd1; reflexivity).
  rewrite for_each_cons.
  rewrite (attempt_reprovision 1 c1 w1 k1 r2 u2 (o :: rest) d2 Hk1 Hne1 eq_refl
             Hr2 eq_refl Hu2).
  set (c2 := with_credentials c1 d2). set (w2 := after_post _ _ _).
  exists c2, w2. eexists. rewrite for_each_cons. cbn [for_each ret].
  split; [reflexivity|].
  split; [subst c2; simpl; rewrite Hd2; reflexivity|].
  split; [reflexivity|]. split; [reflexivity|].
  split; [subst w2 w1; cbn [trace after_post drew]; rewrite <- !app_assoc; reflexivity|].
  unfold posts_to, user_request, agent_request. cbn -[String.eqb users_url agent_url].
  replace (users_url c1) with (users_url c) by reflexivity.
  replace (agent_url c1) with (agent_url c) by reflexivity.
  rewrite !String.eqb_refl, users_is_not_agent, agent_is_not_users. split; reflexivity.
Qed.

End CreateAgent.

(** ** One attempt of [generate_completion] *)

Section GenerateCompletion.
Variables (endpoint : string) (headers : list (string * pyval)) (body : pyval).
Variables (agent_id : string) (max_retries : Z).

Local Abbreviation attempt_ :=
  (generate_completion_attempt endpoint headers body agent_id max_retries).
Local Abbreviation q := (Request endpoint headers body).

(** What an attempt does, by the answer it gets. *)
Lemma completion_attempt_terminal (attempt : Z) c w r rest v :
  script w = Reply r :: rest →
  _handle_response r "Completion generation" = Ok v →
  well_formed_completion v = true →
  has_not_found_signature v = false →
  attempt_ attempt c w = (Ok (Return v), c, after_post q rest w).
Proof.
  intros Hs Hh Hwf Hsig. unfold generate_completion_attempt. run.
  with_script Hs.
  rewrite Hh. destruct v; try discriminate. cbn [py_get].
  unfold well_formed_completion in Hwf. unfold has_not_found_signature in Hsig.
  destruct (d !! "detail") as [[]|]; try discriminate; cbn [from_option id py_startswith].
  - rewrite Hsig. reflexivity.
  - reflexivity.
Qed.

Lemma agent_not_found_inv (r : response) :
  agent_not_found r = true →
  ∃ d s, _handle_response r "Completion generation" = Ok (PDict d)
         ∧ d !! "detail" = Some (PStr s)
         ∧ String.prefix not_found_signature s = true.
Proof.
  unfold agent_not_found, has_not_found_signature.
  destruct (_handle_response r "Completion generation") as [e|[]];
    try discriminate.
  destruct (d !! "detail") as [[]|] eqn:E; try discriminate. eauto.
Qed.

Lemma completion_attempt_not_found_retry (attempt : Z) c w r rest :
  script w = Reply r :: rest →
  agent_not_found r = true →
  attempt < max_retries - 1 →
  attempt_ attempt c w
  = (Ok Continue, c, log (Slept retry_delay) (after_post q rest w)).
Proof.
  intros Hs (d & s & Hh & Hd & Hp)%agent_not_found_inv Hlt.
  unfold generate_completion_attempt. run.
  with_script Hs.
  rewrite Hh. cbn [py_get]. rewrite Hd. cbn [from_option id py_startswith]. rewrite Hp.
  apply Z.ltb_lt in Hlt. rewrite Hlt. reflexivity.
Qed.

Lemma completion_attempt_not_found_last c w r rest :
  script w = Reply r :: rest →
  agent_not_found r = true →
  attempt_ (max_retries - 1) c w
  = (Raise (agent_still_not_found agent_id), c, after_post q rest w).
Proof.
  intros Hs (d & s & Hh & Hd & Hp)%agent_not_found_inv.
  unfold generate_completion_attempt. run.
  with_script Hs.
  rewrite Hh. cbn [py_get]. rewrite Hd. cbn [from_option id py_startswith]. rewrite Hp.
  rewrite Z.ltb_irrefl, Z.eqb_refl. reflexivity.
Qed.

Lemma completion_attempt_transport_error (attempt : Z) c w e rest :
  script w = Fails e :: rest →
  attempt_ attempt c w
  = if attempt =? max_retries - 1 then (Raise e, c, after_post q rest w)
    else (Ok Continue, c, log (Slept retry_delay) (after_post q rest w)).
Proof.
  intros Hs. unfold generate_completion_attempt. run.
  with_script Hs.
  destruct (attempt =? max_retries - 1); reflexivity.
Qed.

End GenerateCompletion.

(** With a credential stored, [generate_completion] is its loop. *)
Lemma generate_completion_unfold key agent_id prompt max_retries c w :
  truthy (api_key c) = true →
  generate_completion key agent_id prompt max_retries c w
  = generate_completion_loop
      (endpoint (completion_request c key agent_id prompt))
      (headers (completion_request c key agent_id prompt))
      (body (completion_request c key agent_id prompt))
      agent_id max_retries (range max_retries) c w.
Proof.
  intros Ht. unfold generate_completion. run. rewrite Ht. reflexivity.
Qed.

(** * The properties of the specification *)

(** C1.  [create_agent] posts at most 3 agent-creation requests, whatever
    the client and the service.  When the service rejects the credential
    on the first two attempts and each re-provisioning issues a fresh key,
    then: if the third attempt returns a body with an agent identifier,
    [create_agent] returns that body, having made exactly 2 [create_user]
    calls; if the third attempt is rejected too, it fails with the
    exhausted-attempts error. *)
Theorem create_agent_bounded_reprovisioning :
  (∀ agent_name system_prompt model_name temperature c w,
     ∃ evs,
       trace (create_agent agent_name system_prompt model_name temperature c w).2
       = trace w ++ evs
       ∧ (posts_to (agent_url c) evs ≤ 3)%nat)
  ∧ (∀ agent_name system_prompt model_name temperature c w
       k r1 u1 r2 u2 r3 rest k1 k2,
       api_key c = PStr k → truthy (api_key c) = true →
       script w = Reply r1 :: Reply u1 :: Reply r2 :: Reply u2 :: Reply r3 :: rest →
       unauthorized r1 = true → issued_key u1 = Some k1 →
       unauthorized r2 = true → issued_key u2 = Some k2 →
       (∀ d, _handle_response r3 "Agent creation" = Ok (PDict d) →
             is_Some (d !! "agent_id") →
             ∃ c' w' evs,
               create_agent agent_name system_prompt model_name temperature c w
               = (Ok (PDict d), c', w')
               ∧ api_key c' = PStr k2
               ∧ trace w' = trace w ++ evs
               ∧ posts_to (users_url c) evs = 2%nat
               ∧ posts_to (agent_url c) evs = 3%nat)
       ∧ (unauthorized r3 = true →
          ∃ c' w' evs,
            create_agent agent_name system_prompt model_name temperature c w
            = (Raise api_key_remains_invalid, c', w')
            ∧ trace w' = trace w ++ evs
            ∧ posts_to (users_url c) evs = 2%nat
            ∧ posts_to (agent_url c) evs = 3%nat)).
Proof.
  split.
  { intros an sp mn te c w. apply (loop_posts_bounded an sp mn te (range max_attempts)). }
  intros an sp mn te c w k r1 u1 r2 u2 r3 rest k1 k2 Hk Ht Hs Hr1 Hu1 Hr2 Hu2.
  assert (Hne : k ≠ "") by (apply truthy_str_inv; rewrite <- Hk; exact Ht).
  destruct (create_agent_reprovisions_twice an sp mn te c w k r1 u1 r2 u2
              (Reply r3) rest k1 k2 Hk Hne Hs Hr1 Hu1 Hr2 Hu2)
    as (c2 & w2 & evs & -> & Hk2 & Hb & Hs2 & Htr & Hnu & Hna).
  assert (Hne2 : k2 ≠ "") by (apply issued_key_inv in Hu2 as (? & ? & ? & ?); assumption).
  assert (Hcount : ∀ q, endpoint q = agent_url c →
            posts_to (users_url c) (evs ++ [Posted q]) = 2%nat
            ∧ posts_to (agent_url c) (evs ++ [Posted q]) = 3%nat).
  { intros q Hq. rewrite !posts_to_app, Hnu, Hna. unfold posts_to. simpl.
    rewrite Hq, String.eqb_refl, agent_is_not_users. split; reflexivity. }
  assert (Hq : endpoint (agent_request c2 an sp mn te k2) = agent_url c).
  { unfold agent_request, agent_url. simpl. rewrite Hb. reflexivity. }
  split.
  - intros d Hh Hd.
    rewrite (attempt_success an sp mn te 2 c2 w2 k2 r3 rest (PDict d) Hk2 Hne2 Hs2 Hh
               (dict_contains d "agent_id" Hd)).
    eexists _, _, _. split; [reflexivity|]. split; [exact Hk2|]. split.
    + cbn [after_post trace]. rewrite Htr, <- app_assoc. reflexivity.
    + apply Hcount, Hq.
  - intros Hr3.
    pose proof (attempt_unauthorized_last an sp mn te c2 w2 k2 r3 rest
                  Hk2 Hne2 Hs2 Hr3) as Hlast.
    change (max_attempts - 1) with 2 in Hlast. rewrite Hlast.
    eexists _, _, _. split; [reflexivity|]. split.
    + cbn [after_post trace]. rewrite Htr, <- app_assoc. reflexivity.
    + apply Hcount, Hq.
Qed.

(** C1 on the scripts [401, 401, agent] and [401, 401, 401]. *)
Lemma create_agent_bounded_reprovisioning_witness :
  (∃ c' w' evs,
     create_agent "Agent_x" "You are a helpful AI assistant." "gpt-4"
       (PFloat 7 (-1)) client0 (world_of (script_reprovision reply_agent))
     = (Ok (PDict (list_to_map
          [("agent_id", PStr "agent-1"); ("agent_name", PStr "Agent_x")])),
        c', w')
     ∧ api_key c' = PStr "sk-2"
     ∧ trace w' = evs
     ∧ posts_to (users_url client0) evs = 2%nat
     ∧ posts_to (agent_url client0) evs = 3%nat)
  ∧ (∃ c' w' evs,
       create_agent "Agent_x" "You are a helpful AI assistant." "gpt-4"
         (PFloat 7 (-1)) client0 (world_of (script_reprovision reply_401))
       = (Raise api_key_remains_invalid, c', w')
       ∧ trace w' = evs
       ∧ posts_to (users_url client0) evs = 2%nat
       ∧ posts_to (agent_url client0) evs = 3%nat).
Proof.
  destruct create_agent_bounded_reprovisioning as [_ H].
  split.
  - apply (H "Agent_x" "You are a helpful AI assistant." "gpt-4" (PFloat 7 (-1))
             client0 (world_of (script_reprovision reply_agent))
             "sk-0" reply_401 (reply_user "sk-1" "u-1") reply_401
             (reply_user "sk-2" "u-2") reply_agent [] "sk-1" "sk-2");
      try reflexivity.
    vm_compute. eauto.
  - apply (H "Agent_x" "You are a helpful AI assistant." "gpt-4" (PFloat 7 (-1))
             client0 (world_of (script_reprovision reply_401))
             "sk-0" reply_401 (reply_user "sk-1" "u-1") reply_401
             (reply_user "sk-2" "u-2") reply_401 [] "sk-1" "sk-2");
      reflexivity.
Defined.

(** C2.  With [max_retries = 3] and a service that answers the first two
    completion requests with the not-found signature: if the third answer
    is a well-formed body without the signature, [generate_completion]
    returns that body and the caller has sat through exactly two delays,
    each of 5 time units; if the third answer carries the signature too,
    it fails with the error that the agent is still not found. *)
Theorem generate_completion_waits_for_agent :
  ∀ key agent_id prompt c w r1 r2 r3 rest,
    truthy (api_key c) = true →
    script w = Reply r1 :: Reply r2 :: Reply r3 :: rest →
    agent_not_found r1 = true → agent_not_found r2 = true →
    let q := completion_request c key agent_id prompt in
    let w' :=
      World rest (entropy w) (draws w)
        (trace w ++ [Posted q; Slept 5; Posted q; Slept 5; Posted q]) in
    (∀ v, _handle_response r3 "Completion generation" = Ok v →
          well_formed_completion v = true →
          has_not_found_signature v = false →
          generate_completion key agent_id prompt 3 c w = (Ok v, c, w')
          ∧ delays (trace w') = delays (trace w) ++ [5; 5])
    ∧ (agent_not_found r3 = true →
       generate_completion key agent_id prompt 3 c w
       = (Raise (agent_still_not_found agent_id), c, w')
       ∧ delays (trace w') = delays (trace w) ++ [5; 5]).
Proof.
  intros key agent_id prompt c w r1 r2 r3 rest Ht Hs H1 H2 q w'.
  rewrite (generate_completion_unfold _ _ _ _ _ _ Ht).
  unfold generate_completion_loop. change (range 3) with [0; 1; 2].
  rewrite for_each_cons.
  rewrite (completion_attempt_not_found_retry _ _ _ _ 3 0 c w r1 _ Hs H1 eq_refl).
  rewrite for_each_cons.
  erewrite completion_attempt_not_found_retry; [| reflexivity | exact H2 | reflexivity].
  rewrite for_each_cons.
  assert (Hd : delays (trace w') = delays (trace w) ++ [5; 5]).
  { subst w'. cbn [trace]. rewrite delays_app. reflexivity. }
  assert (Hw : ∀ (x : result pyval) w1, w1 = w' → (x, c, w1) = (x, c, w'))
    by (intros x w1 ->; reflexivity).
  split.
  - intros v Hh Hwf Hsig.
    erewrite completion_attempt_terminal; [| reflexivity | exact Hh | exact Hwf | exact Hsig].
    split; [| exact Hd]. apply Hw. subst w' q.
    unfold after_post, log, completion_request.
    cbn [script entropy draws trace endpoint headers body].
    rewrite <- !app_assoc. reflexivity.
  - intros H3.
    change 2 with (3 - 1) at 1.
    erewrite completion_attempt_not_found_last; [| reflexivity | exact H3].
    split; [| exact Hd]. apply Hw. subst w' q.
    unfold after_post, log, completion_request.
    cbn [script entropy draws trace endpoint headers body].
    rewrite <- !app_assoc. reflexivity.
Qed.

(** C2 on the scripts [not found, not found, answer] and three times
    [not found]. *)
Lemma generate_completion_waits_for_agent_witness :
  generate_completion "sk-2" "agent-1" "What is the capital of France?" 3 client0
    (world_of [Reply reply_not_found; Reply reply_not_found;
               Reply (reply_completion "Paris")])
  = (Ok (PDict (list_to_map [("response", PStr "Paris"); ("metadata", PDict ∅)])),
     client0,
     World [] (λ n, Z.of_nat n) 0%nat
       (let q := completion_request client0 "sk-2" "agent-1"
                   "What is the capital of France?" in
        [Posted q; Slept 5; Posted q; Slept 5; Posted q]))
  ∧ generate_completion "sk-2" "agent-1" "What is the capital of France?" 3 client0
      (world_of [Reply reply_not_found; Reply reply_not_found;
                 Reply reply_not_found])
    = (Raise (agent_still_not_found "agent-1"), client0,
       World [] (λ n, Z.of_nat n) 0%nat
         (let q := completion_request client0 "sk-2" "agent-1"
                     "What is the capital of France?" in
          [Posted q; Slept 5; Posted q; Slept 5; Posted q])).
Proof.
  split.
  - apply (generate_completion_waits_for_agent "sk-2" "agent-1"
             "What is the capital of France?" client0
             (world_of [Reply reply_not_found; Reply reply_not_found;
                        Reply (reply_completion "Paris")])
             reply_not_found reply_not_found (reply_completion "Paris") []);
      reflexivity.
  - apply (generate_completion_waits_for_agent "sk-2" "agent-1"
             "What is the capital of France?" client0
             (world_of [Reply reply_not_found; Reply reply_not_found;
                        Reply reply_not_found])
             reply_not_found reply_not_found reply_not_found []);
      reflexivity.
Defined.

(** C3, as stated, fails: a body without an agent identifier and a status
    other than 401 on the first attempt does not end [create_agent].  The
    error is swallowed, a second request is posted, and its answer is
    returned. *)
Lemma malformed_agent_response_is_retried :
  let run :=
    create_agent "Agent_x" "You are a helpful AI assistant." "gpt-4"
      (PFloat 7 (-1)) client0
      (world_of [Reply (reply_error 400 "Bad request"); Reply reply_agent]) in
  run.1.1 = Ok (PDict (list_to_map
              [("agent_id", PStr "agent-1"); ("agent_name", PStr "Agent_x")]))
  ∧ run.1.1 ≠ Raise no_agent_id
  ∧ posts_to (agent_url client0) (trace run.2) = 2%nat.
Proof. vm_compute. split; [reflexivity | split; [discriminate | reflexivity]]. Qed.

(** C3, amended.  An attempt of [create_agent] that receives a body without
    an agent identifier and with a status other than 401 posts that one
    request and re-provisions nothing; if it is the final attempt,
    [create_agent] fails with the malformed-response error, otherwise the
    error is swallowed and the loop goes on to the next attempt with the
    same credential. *)
Theorem malformed_agent_response_fatal_when_last :
  ∀ agent_name system_prompt model_name temperature c w k r rest attempt later,
    api_key c = PStr k → truthy (api_key c) = true →
    script w = Reply r :: rest →
    lacks_agent_id r = true → status_code r ≠ 401 →
    let w' :=
      after_post (agent_request c agent_name system_prompt model_name temperature k)
        rest w in
    create_agent_loop agent_name system_prompt model_name temperature
      (attempt :: later) c w
    = if attempt =? max_attempts - 1 then (Raise no_agent_id, c, w')
      else create_agent_loop agent_name system_prompt model_name temperature
             later c w'.
Proof.
  intros an sp mn te c w k r rest attempt later Hk Ht Hs Hl Hst w'.
  assert (Hne : k ≠ "") by (apply truthy_str_inv; rewrite <- Hk; exact Ht).
  unfold create_agent_loop. rewrite for_each_cons.
  rewrite (attempt_malformed an sp mn te attempt c w k r rest Hk Hne Hs Hl Hst).
  unfold swallowed_unless_last. destruct (attempt =? max_attempts - 1); reflexivity.
Qed.

(** C3, amended, on three malformed answers in a row: [create_agent] posts
    its three requests and fails with the error of the third. *)
Lemma malformed_agent_response_fatal_when_last_witness :
  create_agent "Agent_x" "You are a helpful AI assistant." "gpt-4" (PFloat 7 (-1))
    client0
    (world_of [Reply (reply_error 400 "Bad request");
               Reply (reply_error 400 "Bad request");
               Reply (reply_error 400 "Bad request")])
  = (Raise no_agent_id, client0,
     World [] (λ n, Z.of_nat n) 0%nat
       (let q := agent_request client0 "Agent_x" "You are a helpful AI assistant."
                   "gpt-4" (PFloat 7 (-1)) "sk-0" in
        [Posted q; Posted q; Posted q])).
Proof.
  unfold create_agent. change (range max_attempts) with [0; 1; 2].
  erewrite malformed_agent_response_fatal_when_last;
    [| reflexivity | reflexivity | reflexivity | reflexivity | simpl; lia ].
  change (0 =? max_attempts - 1) with false. cbv iota.
  erewrite malformed_agent_response_fatal_when_last;
    [| reflexivity | reflexivity | reflexivity | reflexivity | simpl; lia ].
  change (1 =? max_attempts - 1) with false. cbv iota.
  erewrite malformed_agent_response_fatal_when_last;
    [| reflexivity | reflexivity | reflexivity | reflexivity | simpl; lia ].
  reflexivity.
Defined.

(** The credential checks of [create_agent] and [generate_completion]. *)
Lemma create_agent_requires_credential agent_name system_prompt model_name
    temperature c w :
  truthy (api_key c) = false →
  create_agent agent_name system_prompt model_name temperature c w
  = (Raise no_api_key_for_agent, c, w).
Proof.
  intros Ht. unfold create_agent, create_agent_loop. rewrite range_max_attempts.
  rewrite for_each_cons. unfold create_agent_attempt. run. rewrite Ht. reflexivity.
Qed.

Lemma generate_completion_requires_credential key agent_id prompt max_retries c w :
  truthy (api_key c) = false →
  generate_completion key agent_id prompt max_retries c w
  = (Raise no_api_key_for_completion, c, w).
Proof. intros Ht. unfold generate_completion. run. rewrite Ht. reflexivity. Qed.

(** [create_api_key] has no such check: it posts its request with whatever
    is stored. *)
Lemma create_api_key_always_posts uid c w :
  trace (create_api_key uid c w).2 = trace w ++ [Posted (api_key_request c uid)].
Proof.
  unfold create_api_key, api_key_request. destruct w as [s en dr tr]. run.
  destruct s as [|[e|r] rest]; try reflexivity.
  destruct (_handle_response r "API key creation"); reflexivity.
Qed.

(** The sample client is the one the constructor builds, and a 204 answer
    to [create_user] is one way to leave it without a credential. *)
Lemma init_client0 :
  init (Some "sk-0") "https://api.swarms.ai/v1" true = Ok client0
  ∧ init None "https://api.swarms.ai/v1" true
    = Raise (Exn ValueError "OPENAI_API_KEY environment variable is not set."
               None).
Proof. split; reflexivity. Qed.

Lemma create_user_can_clear_credential :
  (create_user "swarms_user_1234" client0
     (world_of [Reply (Response 204 "" (Ok PNone))])).1
  = (Ok (PDict ∅), with_credentials client0 ∅).
Proof. reflexivity. Qed.

(** C4 is not met by [create_api_key].  With no credential stored (the
    state [create_user] leaves behind when the body it gets has no
    ['api_key']), the request is posted all the same, its [api-key] header
    being [None], and the answer of the service is returned. *)
Theorem create_api_key_posts_without_credential :
  let c := with_credentials client0 ∅ in
  let run := create_api_key "u-1" c (world_of [Reply (json_reply 200 [("key", PStr "sk-9")])]) in
  truthy (api_key c) = false
  ∧ run.1.1 = Ok (PDict (list_to_map [("key", PStr "sk-9")]))
  ∧ trace run.2 = [Posted (api_key_request c "u-1")]
  ∧ header "api-key" (api_key_request c "u-1") = Some PNone.
Proof. vm_compute. repeat split. Qed.

(** A credential of blanks only passes the check of [create_agent] and is
    stripped to an empty [api-key] header. *)
Lemma create_agent_blank_credential :
  let c := Client "https://api.swarms.ai/v1" (PStr "  ") (PStr "sk-0") PNone true in
  let run := create_agent "Agent_x" "You are a helpful AI assistant." "gpt-4"
               (PFloat 7 (-1)) c (world_of [Reply reply_agent]) in
  ∃ q, trace run.2 = [Posted q] ∧ header "api-key" q = Some (PStr "").
Proof. eexists. vm_compute. split; reflexivity. Qed.

(** C5, as stated, fails: [create_user] never looks at the status code.  A
    500 response with a JSON body is returned as a success, and the stored
    credential is overwritten with [None]. *)
Lemma create_user_returns_error_status :
  let run := create_user "swarms_user_1234" client0
               (world_of [Reply (reply_error 500 "Internal Server Error")]) in
  run.1.1 = Ok (PDict (list_to_map [("detail", PStr "Internal Server Error")]))
  ∧ api_key run.1.2 = PNone.
Proof. vm_compute. split; reflexivity. Qed.

(** C5, amended.  When [requests.post] raises, or the response is one that
    [_handle_response] rejects (an empty body with a status other than 204,
    or a body that is not JSON), or its JSON is not an object, [create_user]
    raises a single "Failed to create user" error whose message and context
    carry the cause; it has posted exactly one request and retries nothing,
    and the stored credential is left as it was.  The status code is not
    inspected: a response whose body is a JSON object is returned as a
    success and its fields are stored, whatever its status, 4xx and 5xx
    included. *)
Theorem create_user_failure_and_status :
  (∀ username c w o rest e,
     script w = o :: rest →
     (o = Fails e
      ∨ (∃ r, o = Reply r ∧ _handle_response r "User creation" = Raise e)
      ∨ (∃ r v, o = Reply r ∧ _handle_response r "User creation" = Ok v
                ∧ py_get v "api_key" PNone = Raise e)) →
     create_user username c w
     = (Raise (user_creation_failed e), c,
        after_post (user_request c username) rest w)
     ∧ str (user_creation_failed e) = "Failed to create user: " +:+ str e
     ∧ exn_context (user_creation_failed e) = Some e)
  ∧ (∀ username c w r rest d,
       script w = Reply r :: rest →
       status_code r ≠ 204 → text r ≠ "" → json r = Ok (PDict d) →
       create_user username c w
       = (Ok (PDict d), with_credentials c d,
          after_post (user_request c username) rest w)).
Proof.
  split.
  - intros username c w o rest e Hs Ho.
    split; [| split; reflexivity].
    rewrite create_user_unfold, Hs.
    destruct Ho as [-> | [(r & -> & Hh) | (r & v & -> & Hh & Hg)]];
      [reflexivity | |]; cbv zeta; rewrite Hh; [reflexivity|].
    destruct v; try discriminate; injection Hg as <-; reflexivity.
  - intros username c w r rest d Hs Hst Ht Hj.
    rewrite create_user_unfold, Hs. cbv zeta.
    unfold _handle_response.
    apply Z.eqb_neq in Hst. rewrite Hst.
    destruct (String.eqb_spec (text r) "") as [Hempty|_]; [contradiction|].
    rewrite Hj. reflexivity.
Qed.

(** C5, amended, on a 502 whose body is an HTML page and on a 500 whose
    body is a JSON object. *)
Lemma create_user_failure_and_status_witness :
  create_user "swarms_user_1234" client0
    (world_of [Reply (Response 502 "<html>Bad Gateway</html>"
                        (Raise (Exn RequestsJSONDecodeError
                                  "Expecting value: line 1 column 1 (char 0)" None)))])
  = (Raise (user_creation_failed
       (Exn Exception
          "Invalid JSON response from User creation: Expecting value: line 1 column 1 (char 0)
Raw response: <html>Bad Gateway</html>"
          (Some (Exn RequestsJSONDecodeError
                   "Expecting value: line 1 column 1 (char 0)" None)))),
     client0,
     World [] (λ n, Z.of_nat n) 0%nat
       [Posted (user_request client0 "swarms_user_1234")])
  ∧ create_user "swarms_user_1234" client0
      (world_of [Reply (reply_error 500 "Internal Server Error")])
    = (Ok (PDict (list_to_map [("detail", PStr "Internal Server Error")])),
       with_credentials client0
         (list_to_map [("detail", PStr "Internal Server Error")]),
       World [] (λ n, Z.of_nat n) 0%nat
         [Posted (user_request client0 "swarms_user_1234")]).
Proof.
  destruct create_user_failure_and_status as [Hfail Hstatus].
  split.
  - eapply Hfail; [reflexivity|].
    right. left. eexists. split; reflexivity.
  - apply (Hstatus "swarms_user_1234" client0
             (world_of [Reply (reply_error 500 "Internal Server Error")])
             (reply_error 500 "Internal Server Error") []);
      [reflexivity | simpl; lia | discriminate | reflexivity].
Defined.

(** C6.  When [create_user] returns, what it returns is the parsed body of
    the response (the empty object for a 204, the body's JSON otherwise),
    and the stored [api_key] and [user_id] are the ['api_key'] and
    ['user_id'] fields of that body, [None] for a field the body lacks. *)
Theorem create_user_stores_credentials :
  ∀ username c w result c' w',
    create_user username c w = (Ok result, c', w') →
    ∃ r rest d,
      script w = Reply r :: rest
      ∧ result = PDict d
      ∧ _handle_response r "User creation" = Ok (PDict d)
      ∧ (status_code r ≠ 204 → json r = Ok (PDict d))
      ∧ api_key c' = default PNone (d !! "api_key")
      ∧ user_id c' = default PNone (d !! "user_id").
Proof.
  intros username c w result c' w'. rewrite create_user_unfold.
  destruct (script w) as [|[e|r] rest]; try discriminate.
  cbv zeta.
  destruct (_handle_response r "User creation") as [e|v] eqn:Hh; [discriminate|].
  destruct v; try discriminate.
  intros [= <- <- <-]. exists r, rest, d.
  do 2 (split; [reflexivity|]). split; [exact Hh|].
  split; [| split; reflexivity].
  intros Hst. unfold _handle_response in Hh.
  apply Z.eqb_neq in Hst. rewrite Hst in Hh.
  destruct (String.eqb (text r) ""); [discriminate|].
  destruct (json r) as [e|v]; [| exact Hh].
  destruct (is_JSONDecodeError (exn_cls e)); [discriminate|].
  destruct (is_RequestException (exn_cls e)); discriminate.
Qed.

(** C6 on a response that issues [sk-1] to user [u-1]. *)
Lemma create_user_stores_credentials_witness :
  ∃ r rest d,
    script (world_of [Reply (reply_user "sk-1" "u-1")]) = Reply r :: rest
    ∧ PDict (list_to_map [("api_key", PStr "sk-1"); ("user_id", PStr "u-1")])
      = PDict d
    ∧ _handle_response r "User creation" = Ok (PDict d)
    ∧ (status_code r ≠ 204 → json r = Ok (PDict d))
    ∧ api_key (with_credentials client0
                 (list_to_map [("api_key", PStr "sk-1"); ("user_id", PStr "u-1")]))
      = default PNone (d !! "api_key")
    ∧ user_id (with_credentials client0
                 (list_to_map [("api_key", PStr "sk-1"); ("user_id", PStr "u-1")]))
      = default PNone (d !! "user_id").
Proof.
  apply (create_user_stores_credentials "swarms_user_1234" client0
           (world_of [Reply (reply_user "sk-1" "u-1")]) _ _
           (after_post (user_request client0 "swarms_user_1234") []
              (world_of [Reply (reply_user "sk-1" "u-1")]))).
  reflexivity.
Defined.

(** C7.  In both retry loops, when [requests.post] raises [e] during an
    attempt: if the attempt is the final one ([max_attempts - 1], resp.
    [max_retries - 1]) the method raises that very [e]; if it is an earlier
    one the loop goes on with the attempts that remain ([generate_completion]
    after its fixed delay), the client being unchanged. *)
Theorem transport_exception_propagates_when_last :
  (∀ agent_name system_prompt model_name temperature c w k e rest attempt later,
     api_key c = PStr k → truthy (api_key c) = true →
     script w = Fails e :: rest →
     let w' :=
       after_post
         (agent_request c agent_name system_prompt model_name temperature k)
         rest w in
     create_agent_loop agent_name system_prompt model_name temperature
       (attempt :: later) c w
     = if attempt =? max_attempts - 1 then (Raise e, c, w')
       else create_agent_loop agent_name system_prompt model_name temperature
              later c w')
  ∧ (∀ endpoint headers body agent_id max_retries c w e rest attempt later,
       script w = Fails e :: rest →
       let w' := after_post (Request endpoint headers body) rest w in
       generate_completion_loop endpoint headers body agent_id max_retries
         (attempt :: later) c w
       = if attempt =? max_retries - 1 then (Raise e, c, w')
         else generate_completion_loop endpoint headers body agent_id
                max_retries later c (log (Slept retry_delay) w')).
Proof.
  split.
  - intros an sp mn te c w k e rest attempt later Hk Ht Hs w'.
    assert (Hne : k ≠ "") by (apply truthy_str_inv; rewrite <- Hk; exact Ht).
    unfold create_agent_loop. rewrite for_each_cons.
    rewrite (attempt_transport_error an sp mn te attempt c w k e rest Hk Hne Hs).
    unfold swallowed_unless_last.
    destruct (attempt =? max_attempts - 1); reflexivity.
  - intros ep hs b agent_id n c w e rest attempt later Hs w'.
    unfold generate_completion_loop. rewrite for_each_cons.
    rewrite (completion_attempt_transport_error ep hs b agent_id n attempt c w e
               rest Hs).
    destruct (attempt =? n - 1); reflexivity.
Qed.

(** C7 on three transport failures in a row: both methods make their three
    attempts and raise the third exception. *)
Lemma transport_exception_propagates_when_last_witness :
  create_agent "Agent_x" "You are a helpful AI assistant." "gpt-4" (PFloat 7 (-1))
    client0 (world_of [Fails connection_refused; Fails read_timed_out;
                       Fails connection_reset])
  = (Raise connection_reset, client0,
     World [] (λ n, Z.of_nat n) 0%nat
       (let q := agent_request client0 "Agent_x" "You are a helpful AI assistant."
                   "gpt-4" (PFloat 7 (-1)) "sk-0" in
        [Posted q; Posted q; Posted q]))
  ∧ generate_completion "sk-2" "agent-1" "What is the capital of France?" 3 client0
      (world_of [Fails connection_refused; Fails read_timed_out;
                 Fails connection_reset])
    = (Raise connection_reset, client0,
       World [] (λ n, Z.of_nat n) 0%nat
         (let q := completion_request client0 "sk-2" "agent-1"
                     "What is the capital of France?" in
          [Posted q; Slept 5; Posted q; Slept 5; Posted q])).
Proof.
  destruct transport_exception_propagates_when_last as [Hagent Hcompletion].
  split.
  - unfold create_agent. change (range max_attempts) with [0; 1; 2].
    erewrite Hagent by reflexivity.
    change (0 =? max_attempts - 1) with false. cbv iota.
    erewrite Hagent by reflexivity.
    change (1 =? max_attempts - 1) with false. cbv iota.
    erewrite Hagent by reflexivity.
    reflexivity.
  - rewrite (generate_completion_unfold _ _ _ _ client0 _ eq_refl).
    change (range 3) with [0; 1; 2].
    erewrite Hcompletion by reflexivity.
    change (0 =? 3 - 1) with false. cbv iota.
    erewrite Hcompletion by reflexivity.
    change (1 =? 3 - 1) with false. cbv iota.
    erewrite Hcompletion by reflexivity.
    reflexivity.
Defined.

(** C8 is not met on every body.  A validation error of the service, a
    JSON object whose [detail] is a list, parses and does not carry the
    not-found signature, yet it is not returned: [startswith] raises on the
    list, the attempt counts as failed, and after three such answers and
    two delays [generate_completion] raises that [AttributeError]. *)
Theorem completion_with_list_detail_is_not_returned :
  let r := json_reply 422
             [("detail", PList [PDict (list_to_map
                                         [("msg", PStr "field required")])])] in
  let run :=
    generate_completion "sk-2" "agent-1" "What is the capital of France?" 3
      client0 (world_of [Reply r; Reply r; Reply r]) in
  (∃ d, _handle_response r "Completion generation" = Ok (PDict d)
        ∧ has_not_found_signature (PDict d) = false)
  ∧ run.1.1
    = Raise (Exn AttributeError "'list' object has no attribute 'startswith'"
               None)
  ∧ delays (trace run.2) = [5; 5]
  ∧ posts_to "https://api.swarms.ai/v1/agent/completions" (trace run.2) = 3%nat.
Proof.
  cbv zeta. split; [eexists; split; reflexivity|].
  vm_compute. repeat split.
Qed.

(** X19.  A well-formed completion body, that is a JSON object whose
    [detail] is absent or text, and whose [detail] does not carry the
    not-found signature ends [generate_completion] on the attempt it arrives
    on: the body is returned as it is, no exception is raised and no delay
    follows.  This holds in particular for the body whose ['response'] is
    the sentinel "None". *)
Theorem completion_without_signature_is_returned :
  ∀ key agent_id prompt max_retries c w r rest v,
    script w = Reply r :: rest →
    _handle_response r "Completion generation" = Ok v →
    well_formed_completion v = true →
    has_not_found_signature v = false →
    (∀ endpoint headers body attempt later,
       generate_completion_loop endpoint headers body agent_id max_retries
         (attempt :: later) c w
       = (Ok v, c, after_post (Request endpoint headers body) rest w))
    ∧ (truthy (api_key c) = true → 0 < max_retries →
       generate_completion key agent_id prompt max_retries c w
       = (Ok v, c, after_post (completion_request c key agent_id prompt) rest w)).
Proof.
  intros key agent_id prompt n c w r rest v Hs Hh Hwf Hsig.
  assert (Hloop : ∀ endpoint headers body attempt later,
            generate_completion_loop endpoint headers body agent_id n
              (attempt :: later) c w
            = (Ok v, c, after_post (Request endpoint headers body) rest w)).
  { intros ep hs b attempt later. unfold generate_completion_loop.
    rewrite for_each_cons.
    rewrite (completion_attempt_terminal ep hs b agent_id n attempt c w r rest v
               Hs Hh Hwf Hsig). reflexivity. }
  split; [exact Hloop|].
  intros Ht Hn. rewrite (generate_completion_unfold _ _ _ _ _ _ Ht).
  unfold range. destruct (Z.to_nat n) as [|m] eqn:Hm; [lia|].
  cbn [seq fmap list_fmap]. apply Hloop.
Qed.

(** X19 on the body whose ['response'] is the sentinel. *)
Lemma completion_without_signature_is_returned_witness :
  generate_completion "sk-2" "agent-1" "What is the capital of France?" 3 client0
    (world_of [Reply (reply_completion "None")])
  = (Ok (PDict (list_to_map [("response", PStr "None"); ("metadata", PDict ∅)])),
     client0,
     after_post
       (completion_request client0 "sk-2" "agent-1" "What is the capital of France?")
       [] (world_of [Reply (reply_completion "None")])).
Proof.
  apply (completion_without_signature_is_returned "sk-2" "agent-1"
           "What is the capital of France?" 3 client0
           (world_of [Reply (reply_completion "None")]) (reply_completion "None") []);
    reflexivity.
Defined.

(** A [detail] that is not text is outside X19: [startswith] raises on it,
    and the attempt ends like any other failed one. *)
Lemma completion_detail_not_text :
  let run :=
    generate_completion "sk-2" "agent-1" "What is the capital of France?" 3 client0
      (world_of [Reply (json_reply 422 [("detail", PList [PStr "field required"])]);
                 Reply (reply_completion "Paris")]) in
  run.1.1 = Ok (PDict (list_to_map [("response", PStr "Paris"); ("metadata", PDict ∅)]))
  ∧ delays (trace run.2) = [5].
Proof. vm_compute. split; reflexivity. Qed.

(** C9.  Whatever the status code of the response, a parsed body with an
    ['agent_id'] key ends [create_agent] on the attempt it arrives on, and
    is what [create_agent] returns. *)
Theorem agent_id_is_success_whatever_status :
  ∀ agent_name system_prompt model_name temperature c w k r rest d,
    api_key c = PStr k → truthy (api_key c) = true →
    script w = Reply r :: rest →
    _handle_response r "Agent creation" = Ok (PDict d) →
    is_Some (d !! "agent_id") →
    let w' :=
      after_post (agent_request c agent_name system_prompt model_name temperature k)
        rest w in
    (∀ attempt later,
       create_agent_loop agent_name system_prompt model_name temperature
         (attempt :: later) c w
       = (Ok (PDict d), c, w'))
    ∧ create_agent agent_name system_prompt model_name temperature c w
      = (Ok (PDict d), c, w').
Proof.
  intros an sp mn te c w k r rest d Hk Ht Hs Hh Hd w'.
  assert (Hne : k ≠ "") by (apply truthy_str_inv; rewrite <- Hk; exact Ht).
  assert (Hloop : ∀ attempt later,
            create_agent_loop an sp mn te (attempt :: later) c w
            = (Ok (PDict d), c, w')).
  { intros attempt later. unfold create_agent_loop. rewrite for_each_cons.
    rewrite (attempt_success an sp mn te attempt c w k r rest (PDict d) Hk Hne Hs Hh
               (dict_contains d "agent_id" Hd)). reflexivity. }
  split; [exact Hloop|].
  unfold create_agent. rewrite range_max_attempts. apply Hloop.
Qed.

(** C9 on a 401 response whose body has an ['agent_id']. *)
Lemma agent_id_is_success_whatever_status_witness :
  create_agent "Agent_x" "You are a helpful AI assistant." "gpt-4" (PFloat 7 (-1))
    client0
    (world_of [Reply (json_reply 401 [("agent_id", PStr "agent-1")])])
  = (Ok (PDict (list_to_map [("agent_id", PStr "agent-1")])), client0,
     after_post
       (agent_request client0 "Agent_x" "You are a helpful AI assistant." "gpt-4"
          (PFloat 7 (-1)) "sk-0")
       [] (world_of [Reply (json_reply 401 [("agent_id", PStr "agent-1")])])).
Proof.
  apply (agent_id_is_success_whatever_status "Agent_x"
           "You are a helpful AI assistant." "gpt-4" (PFloat 7 (-1)) client0
           (world_of [Reply (json_reply 401 [("agent_id", PStr "agent-1")])])
           "sk-0" (json_reply 401 [("agent_id", PStr "agent-1")]) []
           (list_to_map [("agent_id", PStr "agent-1")]));
    try reflexivity.
  vm_compute. eauto.
Defined.

(** C10.  With [max_retries <= 0] and a credential stored,
    [generate_completion] posts nothing, raises nothing and returns
    [None]. *)
Theorem generate_completion_without_attempts :
  ∀ key agent_id prompt max_retries c w,
    max_retries ≤ 0 → truthy (api_key c) = true →
    generate_completion key agent_id prompt max_retries c w = (Ok PNone, c, w).
Proof.
  intros key agent_id prompt n c w Hn Ht.
  rewrite (generate_completion_unfold _ _ _ _ _ _ Ht).
  unfold range. replace (Z.to_nat n) with 0%nat by lia. reflexivity.
Qed.

(** C10 on [max_retries = 0]. *)
Lemma generate_completion_without_attempts_witness :
  generate_completion "sk-2" "agent-1" "What is the capital of France?" 0 client0
    (world_of [Reply (reply_completion "Paris")])
  = (Ok PNone, client0, world_of [Reply (reply_completion "Paris")]).
Proof.
  apply generate_completion_without_attempts; [lia | reflexivity].
Defined.

(** * Further properties *)

(** ** The loop of [generate_completion] *)

Lemma range_S (n : Z) : 0 < n → range n = range (n - 1) ++ [n - 1].
Proof.
  intros Hn. unfold range.
  replace (Z.to_nat n) with (S (Z.to_nat (n - 1))) by lia.
  rewrite seq_S, fmap_app. simpl. f_equal. f_equal. lia.
Qed.

Lemma range_bounds (n a : Z) : a ∈ range n → 0 ≤ a < n.
Proof.
  unfold range. intros (k & -> & Hk)%list_elem_of_fmap.
  apply elem_of_seq in Hk. lia.
Qed.

Lemma not_last_range (n : Z) : length (not_last n (range n)) = Z.to_nat (n - 1).
Proof.
  destruct (Z_lt_le_dec 0 n) as [Hn|Hn].
  - rewrite (range_S n Hn). unfold not_last.
    rewrite List.filter_app, length_app. simpl. rewrite Z.eqb_refl. simpl.
    rewrite Nat.add_0_r.
    rewrite List.forallb_filter_id.
    + unfold range. rewrite length_fmap, length_seq. reflexivity.
    + apply List.forallb_forall. intros a Ha%list_elem_of_In%range_bounds.
      apply negb_true_iff, Z.eqb_neq. lia.
  - unfold range. replace (Z.to_nat n) with 0%nat by lia.
    replace (Z.to_nat (n - 1)) with 0%nat by lia. reflexivity.
Qed.

Section CompletionLoop.
Variables (endpoint : string) (headers : list (string * pyval)) (body : pyval).
Variables (agent_id : string) (max_retries : Z).

Local Abbreviation attempt_ :=
  (generate_completion_attempt endpoint headers body agent_id max_retries).
Local Abbreviation loop_ :=
  (generate_completion_loop endpoint headers body agent_id max_retries).
Local Abbreviation q := (Request endpoint headers body).

(** An attempt posts the request once, keeps the client, and pauses only
    when it is not the last one and the loop goes on. *)
Lemma completion_attempt_effect (attempt : Z) c w :
  ∃ r evs,
    attempt_ attempt c w
    = (r, c, World (tail (script w)) (entropy w) (draws w) (trace w ++ evs))
    ∧ (evs = [Posted q]
       ∨ (evs = [Posted q; Slept retry_delay]
          ∧ attempt ≠ max_retries - 1 ∧ r = Ok Continue)).
Proof.
  unfold generate_completion_attempt. run. destruct w as [s en dr tr].
  cbn [script entropy draws trace tail].
  destruct (Z.eqb_spec attempt (max_retries - 1)) as [Heq|Hne];
    destruct (Z.ltb_spec attempt (max_retries - 1)) as [Hlt|Hge]; try lia;
    (destruct s as [|[e|r] rest];
     [| | destruct (_handle_response r "Completion generation") as [e|v];
          [| destruct (py_get v "detail" (PStr "")) as [e|detail];
             [| destruct (py_startswith detail not_found_signature)
                  as [e|[|]]]]]);
    cbv beta iota;
    first
      [ eexists _, [Posted q]; split; [reflexivity | left; reflexivity]
      | eexists _, [Posted q; Slept retry_delay]; rewrite <- app_assoc;
        split; [reflexivity | right; auto] ].
Qed.

(** A loop keeps the client; it only posts the one request and pauses for
    the fixed delay, one post at most per attempt and one pause at most per
    attempt that is not the last. *)
Lemma completion_loop_effect (attempts : list Z) c w :
  ∃ r w' evs,
    loop_ attempts c w = (r, c, w')
    ∧ trace w' = trace w ++ evs
    ∧ Forall (λ e, e = Posted q ∨ e = Slept retry_delay) evs
    ∧ (posts_to endpoint evs ≤ length attempts)%nat
    ∧ (length (delays evs) ≤ length (not_last max_retries attempts))%nat.
Proof.
  unfold generate_completion_loop. revert w.
  induction attempts as [|a later IH]; intros w.
  { exists (Ok PNone), w, []. rewrite app_nil_r.
    split; [reflexivity|]. split; [reflexivity|]. split; [constructor|].
    split; [unfold posts_to | unfold delays, not_last]; simpl; lia. }
  rewrite for_each_cons.
  destruct (completion_attempt_effect a c w) as (r & evs & -> & Hevs).
  set (w1 := World _ _ _ _).
  assert (Hshape : Forall (λ e, e = Posted q ∨ e = Slept retry_delay) evs
                   ∧ (posts_to endpoint evs ≤ 1)%nat
                   ∧ (length (delays evs)
                      ≤ length (not_last max_retries [a]))%nat).
  { unfold posts_to, not_last.
    destruct Hevs as [-> | (-> & Hne%Z.eqb_neq & _)];
      simpl;
      rewrite String.eqb_refl; try rewrite Hne;
      (split; [repeat (apply List.Forall_cons; [auto|]); apply List.Forall_nil|]);
      simpl; [destruct (a =? max_retries - 1)|]; simpl; lia. }
  destruct Hshape as (Hall & Hposts & Hdelays).
  assert (Hstop : ∀ x : result pyval,
    ∃ r' w' evs',
      (x, c, w1) = (r', c, w') ∧ trace w' = trace w ++ evs'
      ∧ Forall (λ e, e = Posted q ∨ e = Slept retry_delay) evs'
      ∧ (posts_to endpoint evs' ≤ length (a :: later))%nat
      ∧ (length (delays evs')
         ≤ length (not_last max_retries (a :: later)))%nat).
  { intros x. exists x, w1, evs. split; [reflexivity|]. split; [reflexivity|].
    split; [exact Hall|]. split; [simpl; lia|].
    change (a :: later) with ([a] ++ later). unfold not_last in *.
    rewrite List.filter_app, length_app. lia. }
  destruct r as [e|[|v]]; [apply Hstop | | apply Hstop].
  destruct (IH w1) as (r' & w' & evs' & -> & Ht & Hall' & Hposts' & Hdelays').
  exists r', w', (evs ++ evs'). split; [reflexivity|].
  split; [rewrite Ht; subst w1; cbn [trace]; rewrite app_assoc; reflexivity|].
  split; [apply Forall_app; auto|].
  rewrite posts_to_app, delays_app, length_app.
  change (a :: later) with ([a] ++ later). unfold not_last in *.
  rewrite List.filter_app, !length_app. simpl length at 1. split; lia.
Qed.

End CompletionLoop.

(** [n] failing outcomes in a row, met by the attempts [i .. i + n - 1] the
    last of which is the final one. *)
Lemma completion_loop_exhausted endpoint headers body agent_id max_retries
    c o rest (os : list outcome) :
  ∀ (i : nat) w,
    script w = os ++ o :: rest →
    Z.of_nat (i + length os) = max_retries - 1 →
    forallb failing os = true → failing o = true →
    generate_completion_loop endpoint headers body agent_id max_retries
      (Z.of_nat <$> seq i (S (length os))) c w
    = (Raise (final_error agent_id o), c,
       World rest (entropy w) (draws w)
         (trace w ++ retry_trace (Request endpoint headers body)
                       (S (length os)))).
Proof.
  unfold generate_completion_loop.
  induction os as [|o' os IH]; intros i w Hs Hi Hos Ho.
  - cbn [length seq fmap list_fmap]. rewrite for_each_cons.
    replace (Z.of_nat i) with (max_retries - 1) by (simpl in Hi; lia).
    destruct o as [e|r]; cbn [failing final_error] in *.
    + rewrite (completion_attempt_transport_error _ _ _ _ _ _ _ _ e rest Hs).
      rewrite Z.eqb_refl. reflexivity.
    + rewrite (completion_attempt_not_found_last _ _ _ _ _ _ _ r rest Hs Ho).
      reflexivity.
  - cbn [length] in *. cbn [forallb] in Hos.
    apply andb_prop in Hos as [Ho' Hos].
    change (seq i (S (S (length os)))) with (i :: seq (S i) (S (length os))).
    cbn [fmap list_fmap]. rewrite for_each_cons.
    assert (Hlt : Z.of_nat i < max_retries - 1) by lia.
    assert (Hstep :
      generate_completion_attempt endpoint headers body agent_id max_retries
        (Z.of_nat i) c w
      = (Ok Continue, c,
         log (Slept retry_delay)
           (after_post (Request endpoint headers body) (os ++ o :: rest) w))).
    { destruct o' as [e|r]; cbn [failing] in Ho'.
      - rewrite (completion_attempt_transport_error _ _ _ _ _ _ _ _ e _ Hs).
        replace (Z.of_nat i =? max_retries - 1) with false
          by (symmetry; apply Z.eqb_neq; lia).
        reflexivity.
      - apply (completion_attempt_not_found_retry _ _ _ _ _ _ _ _ r _ Hs Ho' Hlt). }
    rewrite Hstep.
    erewrite (IH (S i)); [| reflexivity | lia | exact Hos | exact Ho].
    unfold log, after_post. cbn [script entropy draws trace].
    change (retry_trace (Request endpoint headers body) (S (S (length os))))
      with (Posted (Request endpoint headers body) :: Slept retry_delay
            :: retry_trace (Request endpoint headers body) (S (length os))).
    rewrite <- !app_assoc. reflexivity.
Qed.

(** On a body that is not well formed, [get] or [startswith] raises, and
    the attempt ends as a failed one. *)
Lemma completion_attempt_malformed endpoint headers body agent_id max_retries
    attempt c w r rest v :
  script w = Reply r :: rest →
  _handle_response r "Completion generation" = Ok v →
  well_formed_completion v = false →
  generate_completion_attempt endpoint headers body agent_id max_retries
    attempt c w
  = if attempt =? max_retries - 1
    then (Raise (detail_error v), c,
          after_post (Request endpoint headers body) rest w)
    else (Ok Continue, c,
          log (Slept retry_delay)
            (after_post (Request endpoint headers body) rest w)).
Proof.
  intros Hs Hh Hwf. unfold generate_completion_attempt. run. with_script Hs.
  rewrite Hh. unfold well_formed_completion in Hwf.
  destruct v; cbn [py_get detail_error];
    try (destruct (attempt =? max_retries - 1); reflexivity).
  destruct (d !! "detail") as [[]|]; try discriminate;
    cbn [from_option id py_startswith];
    destruct (attempt =? max_retries - 1); reflexivity.
Qed.

(** The client an attempt runs in shows in neither its result nor the
    world it leaves. *)
Lemma completion_attempt_any_client endpoint headers body agent_id max_retries
    attempt c1 c2 w :
  (generate_completion_attempt endpoint headers body agent_id max_retries
     attempt c1 w).1.1
  = (generate_completion_attempt endpoint headers body agent_id max_retries
       attempt c2 w).1.1
  ∧ (generate_completion_attempt endpoint headers body agent_id max_retries
       attempt c1 w).2
    = (generate_completion_attempt endpoint headers body agent_id max_retries
         attempt c2 w).2.
Proof.
  unfold generate_completion_attempt. run. destruct w as [s en dr tr].
  cbn [script entropy draws trace].
  destruct (attempt =? max_retries - 1), (attempt <? max_retries - 1);
    (destruct s as [|[e|r] rest];
     [| | destruct (_handle_response r "Completion generation") as [e|v];
          [| destruct (py_get v "detail" (PStr "")) as [e|detail];
             [| destruct (py_startswith detail not_found_signature)
                  as [e|[|]]]]]);
    split; reflexivity.
Qed.

Lemma completion_loop_any_client endpoint headers body agent_id max_retries
    attempts c1 c2 :
  ∀ w,
    (generate_completion_loop endpoint headers body agent_id max_retries
       attempts c1 w).1.1
    = (generate_completion_loop endpoint headers body agent_id max_retries
         attempts c2 w).1.1
    ∧ (generate_completion_loop endpoint headers body agent_id max_retries
         attempts c1 w).2
      = (generate_completion_loop endpoint headers body agent_id max_retries
           attempts c2 w).2.
Proof.
  unfold generate_completion_loop.
  induction attempts as [|a later IH]; intros w; [split; reflexivity|].
  rewrite !for_each_cons.
  destruct (completion_attempt_any_client endpoint headers body agent_id
              max_retries a c1 c2 w) as [Hr Hw].
  destruct (completion_attempt_effect endpoint headers body agent_id
              max_retries a c1 w) as (r1 & evs1 & E1 & _).
  destruct (completion_attempt_effect endpoint headers body agent_id
              max_retries a c2 w) as (r2 & evs2 & E2 & _).
  rewrite E1, E2 in *. cbn [fst snd] in Hr, Hw. subst r2. rewrite <- Hw.
  destruct r1 as [e|[|v]]; [split; reflexivity | apply IH | split; reflexivity].
Qed.

(** ** [generate_completion], whatever the service does *)

(** X14.  [generate_completion] never changes the client.  All it does to the
    world is post its one request, at most [max_retries] times, and pause
    for the fixed delay, at most [max_retries - 1] times. *)
Theorem generate_completion_effect :
  ∀ key agent_id prompt max_retries c w,
    let run := generate_completion key agent_id prompt max_retries c w in
    let q := completion_request c key agent_id prompt in
    run.1.2 = c
    ∧ ∃ evs,
        trace run.2 = trace w ++ evs
        ∧ Forall (λ e, e = Posted q ∨ e = Slept retry_delay) evs
        ∧ (posts_to (endpoint q) evs ≤ Z.to_nat max_retries)%nat
        ∧ (length (delays evs) ≤ Z.to_nat (max_retries - 1))%nat.
Proof.
  intros key agent_id prompt n c w run q. subst run.
  destruct (truthy (api_key c)) eqn:Ht.
  - rewrite (generate_completion_unfold _ _ _ _ _ _ Ht). fold q.
    destruct q as [ep hs b]. cbn [endpoint headers body].
    destruct (completion_loop_effect ep hs b agent_id n (range n) c w)
      as (r & w' & evs & -> & Htr & Hall & Hposts & Hdelays).
    split; [reflexivity|]. exists evs.
    rewrite not_last_range in Hdelays.
    unfold range in Hposts. rewrite length_fmap, length_seq in Hposts.
    auto.
  - rewrite (generate_completion_requires_credential _ _ _ _ _ _ Ht).
    split; [reflexivity|]. exists []. rewrite app_nil_r.
    split; [reflexivity|]. split; [constructor|].
    split; [unfold posts_to | unfold delays]; simpl; lia.
Qed.

(** X15.  When every one of the [max_retries] attempts fails, by a transport
    exception or by the not-found signature, [generate_completion] raises
    what the last one gives: the transport exception itself, or the error
    that the agent is still not found.  It has posted [max_retries] times
    and paused between consecutive posts. *)
Theorem generate_completion_exhausts_retries :
  ∀ key agent_id prompt max_retries c w os o rest,
    truthy (api_key c) = true →
    script w = os ++ o :: rest →
    Z.of_nat (length os) = max_retries - 1 →
    forallb failing os = true → failing o = true →
    generate_completion key agent_id prompt max_retries c w
    = (Raise (final_error agent_id o), c,
       World rest (entropy w) (draws w)
         (trace w ++ retry_trace (completion_request c key agent_id prompt)
                       (S (length os)))).
Proof.
  intros key agent_id prompt n c w os o rest Ht Hs Hn Hos Ho.
  rewrite (generate_completion_unfold _ _ _ _ _ _ Ht).
  unfold range. replace (Z.to_nat n) with (S (length os)) by lia.
  apply (completion_loop_exhausted _ _ _ agent_id n c o rest os 0%nat w Hs);
    [simpl; lia | exact Hos | exact Ho].
Qed.

(** Four attempts: a refused connection, twice the signature, a timeout. *)
Lemma generate_completion_exhausts_retries_witness :
  generate_completion "sk-2" "agent-1" "What is the capital of France?" 4 client0
    (world_of [Fails connection_refused; Reply reply_not_found;
               Reply reply_not_found; Fails read_timed_out])
  = (Raise read_timed_out, client0,
     World [] (λ n, Z.of_nat n) 0%nat
       (let q := completion_request client0 "sk-2" "agent-1"
                   "What is the capital of France?" in
        [Posted q; Slept 5; Posted q; Slept 5; Posted q; Slept 5; Posted q])).
Proof.
  apply (generate_completion_exhausts_retries "sk-2" "agent-1"
           "What is the capital of France?" 4 client0
           (world_of [Fails connection_refused; Reply reply_not_found;
                      Reply reply_not_found; Fails read_timed_out])
           [Fails connection_refused; Reply reply_not_found;
            Reply reply_not_found]
           (Fails read_timed_out) []); reflexivity.
Defined.

(** X16.  A completion body that is not a JSON object, or whose [detail] is not
    text, is not returned: reading its [detail] raises [AttributeError],
    which ends the attempt like a transport exception, raised on the final
    attempt and followed by the delay and the next attempt otherwise. *)
Theorem completion_malformed_detail_fails_attempt :
  ∀ endpoint headers body agent_id max_retries c w r rest v attempt later,
    script w = Reply r :: rest →
    _handle_response r "Completion generation" = Ok v →
    well_formed_completion v = false →
    let w' := after_post (Request endpoint headers body) rest w in
    generate_completion_loop endpoint headers body agent_id max_retries
      (attempt :: later) c w
    = if attempt =? max_retries - 1 then (Raise (detail_error v), c, w')
      else generate_completion_loop endpoint headers body agent_id
             max_retries later c (log (Slept retry_delay) w').
Proof.
  intros ep hs b agent_id n c w r rest v attempt later Hs Hh Hwf w'.
  unfold generate_completion_loop. rewrite for_each_cons.
  rewrite (completion_attempt_malformed ep hs b agent_id n attempt c w r rest v
             Hs Hh Hwf).
  destruct (attempt =? n - 1); reflexivity.
Qed.

(** A validation error whose [detail] is a list, on the only attempt. *)
Lemma completion_malformed_detail_fails_attempt_witness :
  generate_completion_loop "https://api.swarms.ai/v1/agent/completions" [] PNone
    "agent-1" 1 [0] client0
    (world_of [Reply (json_reply 422 [("detail", PList [PStr "field required"])])])
  = (Raise (Exn AttributeError "'list' object has no attribute 'startswith'" None),
     client0,
     World [] (λ n, Z.of_nat n) 0%nat
       [Posted (Request "https://api.swarms.ai/v1/agent/completions" [] PNone)]).
Proof.
  erewrite completion_malformed_detail_fails_attempt
    with (v := PDict (list_to_map [("detail", PList [PStr "field required"])]))
    by reflexivity.
  reflexivity.
Defined.

(** Every request of a loop carries the headers the loop was given. *)
Lemma completion_request_header key agent_id prompt c :
  header "api-key" (completion_request c key agent_id prompt)
  = Some (PStr (strip key)).
Proof. reflexivity. Qed.

(** X17.  The stored [api_key] only gates [generate_completion]: two clients
    that both hold some credential and agree on the base URL and on the
    OpenAI key get the same result and leave the same world, whatever
    their stored credentials are.  The credential that is sent, in the
    [api-key] header of every request posted, is the argument, stripped. *)
Theorem stored_credential_only_gates_completion :
  ∀ key agent_id prompt max_retries c1 c2 w,
    truthy (api_key c1) = true → truthy (api_key c2) = true →
    base_url c1 = base_url c2 →
    openai_api_key c1 = openai_api_key c2 →
    (generate_completion key agent_id prompt max_retries c1 w).1.1
    = (generate_completion key agent_id prompt max_retries c2 w).1.1
    ∧ (generate_completion key agent_id prompt max_retries c1 w).2
      = (generate_completion key agent_id prompt max_retries c2 w).2
    ∧ ∃ evs,
        trace (generate_completion key agent_id prompt max_retries c1 w).2
        = trace w ++ evs
        ∧ Forall (λ e, ∀ q, e = Posted q →
                            header "api-key" q = Some (PStr (strip key))) evs.
Proof.
  intros key agent_id prompt n c1 c2 w H1 H2 Hb Ho.
  split; [| split].
  - rewrite (generate_completion_unfold _ _ _ _ _ _ H1).
    rewrite (generate_completion_unfold _ _ _ _ _ _ H2).
    unfold completion_request. rewrite Hb, Ho.
    apply completion_loop_any_client.
  - rewrite (generate_completion_unfold _ _ _ _ _ _ H1).
    rewrite (generate_completion_unfold _ _ _ _ _ _ H2).
    unfold completion_request. rewrite Hb, Ho.
    apply completion_loop_any_client.
  - rewrite (generate_completion_unfold _ _ _ _ _ _ H1).
    pose proof (completion_request_header key agent_id prompt c1) as Hq.
    destruct (completion_request c1 key agent_id prompt) as [ep hs b].
    cbn [endpoint headers body].
    destruct (completion_loop_effect ep hs b agent_id n (range n) c1 w)
      as (r & w' & evs & -> & Htr & Hall & _ & _).
    exists evs. split; [exact Htr|].
    eapply Forall_impl; [exact Hall|].
    intros e [-> | ->] q; [intros [= <-]; exact Hq | discriminate].
Qed.

(** X17 on a client that holds a key and one that holds the number 7, the
    argument being padded with a no-break space. *)
Lemma stored_credential_only_gates_completion_witness :
  let key := nbsp +:+ "sk-2 " in
  let w := world_of [Reply reply_not_found; Reply (reply_completion "Paris")] in
  let c2 := with_credentials client0 (list_to_map [("api_key", PInt 7)]) in
  (generate_completion key "agent-1" "What is the capital of France?" 3
     client0 w).1.1
  = (generate_completion key "agent-1" "What is the capital of France?" 3
       c2 w).1.1
  ∧ (generate_completion key "agent-1" "What is the capital of France?" 3
       client0 w).2
    = (generate_completion key "agent-1" "What is the capital of France?" 3
         c2 w).2
  ∧ ∃ evs,
      trace (generate_completion key "agent-1"
               "What is the capital of France?" 3 client0 w).2
      = trace w ++ evs
      ∧ Forall (λ e, ∀ q, e = Posted q →
                          header "api-key" q = Some (PStr "sk-2")) evs.
Proof.
  intros key w c2.
  apply (stored_credential_only_gates_completion key "agent-1"
           "What is the capital of France?" 3 client0 c2 w); reflexivity.
Defined.

(** ** [create_user] and [create_agent], whatever the service does *)

(** [create_user] posts its one request, touches only the two credential
    fields, and touches nothing when it fails. *)
Lemma create_user_frame (username : string) (c : client) (w : world) :
  ∃ r c',
    create_user username c w
    = (r, c', after_post (user_request c username) (tail (script w)) w)
    ∧ base_url c' = base_url c
    ∧ openai_api_key c' = openai_api_key c
    ∧ debug c' = debug c
    ∧ (∀ e, r = Raise e → c' = c ∧ ∃ cause, e = user_creation_failed cause).
Proof.
  rewrite create_user_unfold.
  destruct (script w) as [|[e|r] rest]; cbn [tail];
    [ eexists _, _; split; [reflexivity|];
      do 3 (split; [reflexivity|]); intros ? [= <-]; eauto .. |].
  cbv zeta.
  destruct (_handle_response r "User creation") as [e|v];
    [| destruct v ];
    eexists _, _; (split; [reflexivity|]);
    do 3 (split; [reflexivity|]);
    first [ intros ? [= <-]; eauto | intros ? [=] ].
Qed.

Section AgentLoop.
Variables agent_name system_prompt model_name : string.
Variable temperature : pyval.

Local Abbreviation attempt_ :=
  (create_agent_attempt agent_name system_prompt model_name temperature).
Local Abbreviation loop_ :=
  (create_agent_loop agent_name system_prompt model_name temperature).

(** The outcomes of an attempt, with the [except] clause applied. *)
Lemma create_agent_attempt_unfold (attempt : Z) (c : client) (w : world) :
  attempt_ attempt c w =
  if negb (truthy (api_key c)) then (Raise no_api_key_for_agent, c, w)
  else
    match py_strip (api_key c) with
    | Raise e => (Raise e, c, w)
    | Ok key =>
        let q := Request (agent_url c) (("api-key", PStr key) :: json_headers)
                   (agent_config agent_name system_prompt model_name
                      temperature) in
        let posted rest := after_post q rest w in
        match script w with
        | [] => (swallowed_unless_last attempt script_exhausted, c, posted [])
        | Fails e :: rest => (swallowed_unless_last attempt e, c, posted rest)
        | Reply r :: rest =>
            match _handle_response r "Agent creation" with
            | Raise e => (swallowed_unless_last attempt e, c, posted rest)
            | Ok v =>
                match py_contains "agent_id" v with
                | Raise e => (swallowed_unless_last attempt e, c, posted rest)
                | Ok true => (Ok (Return v), c, posted rest)
                | Ok false =>
                    if status_code r =? 401 then
                      if attempt <? max_attempts - 1 then
                        match create_user (new_username (posted rest)) c
                                (drew (posted rest)) with
                        | (Ok _, c', w') => (Ok Continue, c', w')
                        | (Raise e, c', w') =>
                            (swallowed_unless_last attempt e, c', w')
                        end
                      else (swallowed_unless_last attempt
                              api_key_remains_invalid, c, posted rest)
                    else (swallowed_unless_last attempt no_agent_id, c,
                          posted rest)
                end
            end
        end
    end.
Proof.
  unfold create_agent_attempt, swallowed_unless_last, after_post, new_username,
    drew, agent_url.
  run.
  destruct (truthy (api_key c)); cbn [negb]; [| reflexivity].
  destruct (py_strip (api_key c)) as [e|key]; [reflexivity|].
  destruct w as [s en dr tr]. cbn [script entropy draws trace].
  destruct (attempt =? max_attempts - 1);
    (destruct s as [|[e|r] rest]; [reflexivity | reflexivity |]);
    (destruct (_handle_response r "Agent creation") as [e|v]; [reflexivity|]);
    (destruct (py_contains "agent_id" v) as [e|[|]]; cbn [negb];
       [reflexivity | reflexivity |]);
    (destruct (status_code r =? 401); [| reflexivity]);
    (destruct (attempt <? max_attempts - 1); [| reflexivity]);
    match goal with
    | |- context [create_user ?u ?c' ?w'] =>
        destruct (create_user u c' w') as [[[e|a] c''] w'']; reflexivity
    end.
Qed.

(** The [except] clause never returns, and on the last attempt never goes
    on. *)
Lemma swallowed_is_no_return (attempt : Z) (e : exn) (v : pyval) :
  swallowed_unless_last attempt e ≠ Ok (Return v).
Proof.
  unfold swallowed_unless_last.
  destruct (attempt =? max_attempts - 1); discriminate.
Qed.

Lemma swallowed_on_last (attempt : Z) (e : exn) :
  attempt = max_attempts - 1 → swallowed_unless_last attempt e ≠ Ok Continue.
Proof. intros ->. discriminate. Qed.

(** What an attempt can do and what it cannot: it never pauses, it posts to
    the users endpoint only to re-provision, which the last attempt never
    does, it keeps what [create_user] keeps, it returns only a body with an
    ['agent_id'], and the last attempt never goes on. *)
Lemma agent_attempt_summary (attempt : Z) (c : client) (w : world) :
  ∃ r c' w' evs,
    attempt_ attempt c w = (r, c', w')
    ∧ trace w' = trace w ++ evs
    ∧ delays evs = []
    ∧ (posts_to (users_url c) evs ≤ length (before_last [attempt]))%nat
    ∧ base_url c' = base_url c
    ∧ openai_api_key c' = openai_api_key c
    ∧ debug c' = debug c
    ∧ (∀ v, r = Ok (Return v) → py_contains "agent_id" v = Ok true)
    ∧ (attempt = max_attempts - 1 → r ≠ Ok Continue).
Proof.
  rewrite create_agent_attempt_unfold.
  (* the attempts that post nothing *)
  assert (Hnone : ∀ e : exn,
    ∃ r c' w' evs,
      (Raise e : result flow, c, w) = (r, c', w')
      ∧ trace w' = trace w ++ evs
      ∧ delays evs = []
      ∧ (posts_to (users_url c) evs ≤ length (before_last [attempt]))%nat
      ∧ base_url c' = base_url c
      ∧ openai_api_key c' = openai_api_key c
      ∧ debug c' = debug c
      ∧ (∀ v, r = Ok (Return v) → py_contains "agent_id" v = Ok true)
      ∧ (attempt = max_attempts - 1 → r ≠ Ok Continue)).
  { intros e. eexists _, _, _, []. split; [reflexivity|]. rewrite app_nil_r.
    do 6 (split; [first [reflexivity | apply Nat.le_0_l]|]).
    split; [intros ? [=] | intros _ [=]]. }
  destruct (truthy (api_key c)); cbn [negb]; [| apply Hnone].
  destruct (py_strip (api_key c)) as [e|key]; [apply Hnone|].
  cbv zeta. set (q := Request _ _ _).
  assert (Hq : posts_to (users_url c) [Posted q] = 0%nat).
  { unfold posts_to. simpl. rewrite agent_is_not_users. reflexivity. }
  (* the attempts that end after their one request *)
  assert (Hend : ∀ (x : result flow) s,
    (∀ v, x = Ok (Return v) → py_contains "agent_id" v = Ok true) →
    (attempt = max_attempts - 1 → x ≠ Ok Continue) →
    ∃ r c' w' evs,
      (x, c, after_post q s w) = (r, c', w')
      ∧ trace w' = trace w ++ evs
      ∧ delays evs = []
      ∧ (posts_to (users_url c) evs ≤ length (before_last [attempt]))%nat
      ∧ base_url c' = base_url c
      ∧ openai_api_key c' = openai_api_key c
      ∧ debug c' = debug c
      ∧ (∀ v, r = Ok (Return v) → py_contains "agent_id" v = Ok true)
      ∧ (attempt = max_attempts - 1 → r ≠ Ok Continue)).
  { intros x s Hx Hl. eexists _, _, _, [Posted q]. split; [reflexivity|].
    rewrite Hq. do 6 (split; [first [reflexivity | apply Nat.le_0_l]|]).
    split; assumption. }
  assert (Hexc : ∀ (e : exn) s,
    ∃ r c' w' evs,
      (swallowed_unless_last attempt e, c, after_post q s w) = (r, c', w')
      ∧ trace w' = trace w ++ evs
      ∧ delays evs = []
      ∧ (posts_to (users_url c) evs ≤ length (before_last [attempt]))%nat
      ∧ base_url c' = base_url c
      ∧ openai_api_key c' = openai_api_key c
      ∧ debug c' = debug c
      ∧ (∀ v, r = Ok (Return v) → py_contains "agent_id" v = Ok true)
      ∧ (attempt = max_attempts - 1 → r ≠ Ok Continue)).
  { intros e s. apply Hend.
    - intros v Hv. destruct (swallowed_is_no_return _ _ _ Hv).
    - apply swallowed_on_last. }
  destruct (script w) as [|[e|r] rest]; [apply Hexc | apply Hexc |].
  destruct (_handle_response r "Agent creation") as [e|v]; [apply Hexc|].
  destruct (py_contains "agent_id" v) as [e|[|]] eqn:Hin;
    [ apply Hexc
    | apply Hend; [intros ? [= <-]; exact Hin | intros _ [=]] |].
  destruct (status_code r =? 401); [| apply Hexc ].
  destruct (Z.ltb_spec attempt (max_attempts - 1)) as [Hlt|Hge];
    [| apply Hexc ].
  (* the re-provisioning *)
  set (u := new_username _).
  destruct (create_user_frame u c (drew (after_post q rest w)))
    as (r' & c'' & -> & Hb & Ho & Hd & Hr).
  assert (Hevs : posts_to (users_url c) [Posted q; Posted (user_request c u)]
                 = 1%nat).
  { unfold posts_to. simpl. rewrite agent_is_not_users, String.eqb_refl.
    reflexivity. }
  assert (Hone : length (before_last [attempt]) = 1%nat).
  { unfold before_last. simpl. apply Z.ltb_lt in Hlt. rewrite Hlt.
    reflexivity. }
  exists (match r' with
          | Raise e => swallowed_unless_last attempt e
          | Ok _ => Ok Continue
          end), c'', (after_post (user_request c u)
                        (tail (script (drew (after_post q rest w))))
                        (drew (after_post q rest w))),
         [Posted q; Posted (user_request c u)].
  rewrite Hevs, Hone.
  split; [destruct r'; reflexivity|].
  split; [cbn [after_post drew trace]; rewrite <- app_assoc; reflexivity|].
  do 5 (split; [first [reflexivity | assumption | apply le_n]|]).
  split.
  - intros v' Hv. destruct r' as [e|a]; [| discriminate].
    destruct (swallowed_is_no_return _ _ _ Hv).
  - intros Hlast. lia.
Qed.

(** Hence, for a loop: no pause, at most one re-provisioning per attempt
    that is not the last, the same frame. *)
Lemma agent_loop_summary (attempts : list Z) :
  ∀ c w,
  ∃ r c' w' evs,
    loop_ attempts c w = (r, c', w')
    ∧ trace w' = trace w ++ evs
    ∧ delays evs = []
    ∧ (posts_to (users_url c) evs
       ≤ length (before_last attempts))%nat
    ∧ base_url c' = base_url c
    ∧ openai_api_key c' = openai_api_key c
    ∧ debug c' = debug c.
Proof.
  unfold create_agent_loop.
  induction attempts as [|a later IH]; intros c w.
  { eexists _, _, _, []. split; [reflexivity|]. rewrite app_nil_r.
    repeat (split; [first [reflexivity | apply le_n]|]). reflexivity. }
  rewrite for_each_cons.
  destruct (agent_attempt_summary a c w)
    as (r & c1 & w1 & evs & -> & Ht & Hd & Hu & Hb & Ho & Hdb & _ & _).
  assert (Hstop : ∀ x : result pyval,
    ∃ r' c' w' evs',
      (x, c1, w1) = (r', c', w')
      ∧ trace w' = trace w ++ evs'
      ∧ delays evs' = []
      ∧ (posts_to (users_url c) evs'
         ≤ length (before_last (a :: later)))%nat
      ∧ base_url c' = base_url c
      ∧ openai_api_key c' = openai_api_key c
      ∧ debug c' = debug c).
  { intros x. exists x, c1, w1, evs. split; [reflexivity|].
    do 2 (split; [assumption|]). split; [| auto].
    change (a :: later) with ([a] ++ later). unfold before_last in *.
    rewrite List.filter_app, length_app. lia. }
  destruct r as [e|[|v]]; [apply Hstop | | apply Hstop].
  destruct (IH c1 w1) as (r' & c' & w' & evs' & -> & Ht' & Hd' & Hu' & Hb' & Ho' & Hdb').
  exists r', c', w', (evs ++ evs'). split; [reflexivity|].
  split; [rewrite Ht', Ht, app_assoc; reflexivity|].
  split; [rewrite delays_app, Hd, Hd'; reflexivity|].
  split.
  { rewrite posts_to_app. change (a :: later) with ([a] ++ later).
    unfold before_last in *. rewrite List.filter_app, length_app.
    unfold users_url in *. rewrite Hb in Hu'. lia. }
  split; [congruence|]. split; congruence.
Qed.

(** A loop that ends with the last attempt returns only a body with an
    ['agent_id']: it neither returns another body nor falls off its end. *)
Lemma agent_loop_returns (attempts : list Z) :
  ∀ c w v,
    (loop_ (attempts ++ [max_attempts - 1]) c w).1.1 = Ok v →
    py_contains "agent_id" v = Ok true.
Proof.
  unfold create_agent_loop.
  induction attempts as [|a earlier IH]; intros c w v;
    cbn [app]; rewrite for_each_cons.
  - destruct (agent_attempt_summary (max_attempts - 1) c w)
      as (r & c1 & w1 & evs & -> & _ & _ & _ & _ & _ & _ & Hret & Hlast).
    destruct r as [e|[|v']]; cbn [fst];
      [ discriminate | destruct (Hlast eq_refl eq_refl) |].
    intros [= <-]. apply Hret. reflexivity.
  - destruct (agent_attempt_summary a c w)
      as (r & c1 & w1 & evs & -> & _ & _ & _ & _ & _ & _ & Hret & _).
    destruct r as [e|[|v']]; cbn [fst]; [ discriminate | apply IH |].
    intros [= <-]. apply Hret. reflexivity.
Qed.

End AgentLoop.

(** X7.  Whatever the client and the service, a value [create_agent] returns is
    a parsed body in which ['agent_id'] is found; in particular it is never
    [None]. *)
Theorem create_agent_returns_only_agents :
  ∀ agent_name system_prompt model_name temperature c w v,
    (create_agent agent_name system_prompt model_name temperature c w).1.1
    = Ok v →
    py_contains "agent_id" v = Ok true.
Proof.
  intros an sp mn te c w v. unfold create_agent. rewrite range_max_attempts.
  apply (agent_loop_returns an sp mn te [0; 1] c w v).
Qed.

(** On a malformed answer followed by an agent. *)
Lemma create_agent_returns_only_agents_witness :
  py_contains "agent_id"
    (PDict (list_to_map
       [("agent_id", PStr "agent-1"); ("agent_name", PStr "Agent_x")]))
  = Ok true.
Proof.
  apply (create_agent_returns_only_agents "Agent_x"
           "You are a helpful AI assistant." "gpt-4" (PFloat 7 (-1)) client0
           (world_of [Reply (reply_error 400 "Bad request"); Reply reply_agent])).
  reflexivity.
Defined.

(** X8.  Whatever the client and the service, [create_agent] never pauses, calls
    [create_user] at most twice, and leaves the base URL, the OpenAI key and
    the debug flag of the client as they were. *)
Theorem create_agent_effect :
  ∀ agent_name system_prompt model_name temperature c w,
    let run := create_agent agent_name system_prompt model_name temperature c w in
    (∃ evs,
       trace run.2 = trace w ++ evs
       ∧ delays evs = []
       ∧ (posts_to (users_url c) evs ≤ 2)%nat)
    ∧ base_url run.1.2 = base_url c
    ∧ openai_api_key run.1.2 = openai_api_key c
    ∧ debug run.1.2 = debug c.
Proof.
  intros an sp mn te c w run. subst run. unfold create_agent.
  destruct (agent_loop_summary an sp mn te (range max_attempts) c w)
    as (r & c' & w' & evs & -> & Ht & Hd & Hu & Hb & Ho & Hdb).
  split; [exists evs; auto | auto].
Qed.

(** X9.  Without a credential both retrying methods fail before any request:
    the client and the world are left as they were.  In [create_agent] the
    check is made anew on every attempt. *)
Theorem credential_checked_before_any_request :
  ∀ c w,
    truthy (api_key c) = false →
    (∀ agent_name system_prompt model_name temperature,
       create_agent agent_name system_prompt model_name temperature c w
       = (Raise no_api_key_for_agent, c, w)
       ∧ ∀ attempt later,
           create_agent_loop agent_name system_prompt model_name temperature
             (attempt :: later) c w
           = (Raise no_api_key_for_agent, c, w))
    ∧ (∀ key agent_id prompt max_retries,
         generate_completion key agent_id prompt max_retries c w
         = (Raise no_api_key_for_completion, c, w)).
Proof.
  intros c w Ht. split.
  - intros an sp mn te. split.
    + apply create_agent_requires_credential, Ht.
    + intros attempt later. unfold create_agent_loop. rewrite for_each_cons.
      rewrite create_agent_attempt_unfold, Ht. reflexivity.
  - intros. apply generate_completion_requires_credential, Ht.
Qed.

(** X9 at a concrete input. *)
Lemma credential_checked_before_any_request_witness :
  create_agent "Agent_x" "You are a helpful AI assistant." "gpt-4" (PFloat 7 (-1))
    (with_credentials client0 ∅) (world_of [Reply reply_agent])
  = (Raise no_api_key_for_agent, with_credentials client0 ∅,
     world_of [Reply reply_agent])
  ∧ generate_completion "sk-2" "agent-1" "What is the capital of France?" 3
      (with_credentials client0 (list_to_map [("api_key", PStr "")]))
      (world_of [Reply (reply_completion "Paris")])
    = (Raise no_api_key_for_completion,
       with_credentials client0 (list_to_map [("api_key", PStr "")]),
       world_of [Reply (reply_completion "Paris")]).
Proof.
  split.
  - apply (credential_checked_before_any_request (with_credentials client0 ∅)
             (world_of [Reply reply_agent])); reflexivity.
  - apply (credential_checked_before_any_request
             (with_credentials client0 (list_to_map [("api_key", PStr "")]))
             (world_of [Reply (reply_completion "Paris")])); reflexivity.
Defined.

(** X10.  A stored credential that is truthy but not a string (a number the
    service sent as ['api_key'], say) makes [create_agent] fail on [strip]
    with an [AttributeError], outside the [try], before any request. *)
Theorem create_agent_credential_not_text :
  ∀ agent_name system_prompt model_name temperature c w,
    truthy (api_key c) = true →
    (∀ k, api_key c ≠ PStr k) →
    create_agent agent_name system_prompt model_name temperature c w
    = (Raise (no_attribute (api_key c) "strip"), c, w).
Proof.
  intros an sp mn te c w Ht Hk.
  unfold create_agent, create_agent_loop. rewrite range_max_attempts.
  rewrite for_each_cons, create_agent_attempt_unfold, Ht. cbn [negb].
  destruct (api_key c) as [| | | |k| |]; try reflexivity.
  destruct (Hk k eq_refl).
Qed.

(** X10 at a concrete input. *)
Lemma create_agent_credential_not_text_witness :
  create_agent "Agent_x" "You are a helpful AI assistant." "gpt-4" (PFloat 7 (-1))
    (with_credentials client0 (list_to_map [("api_key", PInt 42)]))
    (world_of [Reply reply_agent])
  = (Raise (Exn AttributeError "'int' object has no attribute 'strip'" None),
     with_credentials client0 (list_to_map [("api_key", PInt 42)]),
     world_of [Reply reply_agent]).
Proof.
  rewrite create_agent_credential_not_text;
    [reflexivity | reflexivity | intros k; vm_compute; discriminate].
Defined.

(** X11.  When the first answer is a rejection and the re-provisioning answer is
    an object without a usable ['api_key'], the stored credential is
    overwritten by it, and the second attempt fails on the credential check
    although attempts remain: [create_agent] raises the no-credential error
    after one agent request and one user request. *)
Theorem create_agent_reprovision_loses_credential :
  ∀ agent_name system_prompt model_name temperature c w k r u rest d,
    api_key c = PStr k → truthy (api_key c) = true →
    script w = Reply r :: Reply u :: rest →
    unauthorized r = true →
    _handle_response u "User creation" = Ok (PDict d) →
    truthy (default PNone (d !! "api_key")) = false →
    create_agent agent_name system_prompt model_name temperature c w
    = (Raise no_api_key_for_agent, with_credentials c d,
       after_post (user_request c (new_username w)) rest
         (drew (after_post
                  (agent_request c agent_name system_prompt model_name
                     temperature k)
                  (Reply u :: rest) w))).
Proof.
  intros an sp mn te c w k r u rest d Hk Ht Hs Hr Hu Hd.
  assert (Hne : k ≠ "") by (apply truthy_str_inv; rewrite <- Hk; exact Ht).
  unfold create_agent, create_agent_loop. rewrite range_max_attempts.
  rewrite for_each_cons.
  rewrite (attempt_reprovision an sp mn te 0 c w k r u rest d Hk Hne Hs Hr
             eq_refl Hu).
  rewrite for_each_cons, create_agent_attempt_unfold.
  cbn [with_credentials api_key]. rewrite Hd. reflexivity.
Qed.

(** X11 at a concrete input. *)
Lemma create_agent_reprovision_loses_credential_witness :
  (create_agent "Agent_x" "You are a helpful AI assistant." "gpt-4" (PFloat 7 (-1))
     client0
     (world_of [Reply reply_401; Reply (reply_error 409 "Username taken");
                Reply reply_agent])).1
  = (Raise no_api_key_for_agent,
     with_credentials client0 (list_to_map [("detail", PStr "Username taken")])).
Proof.
  erewrite create_agent_reprovision_loses_credential
    with (d := list_to_map [("detail", PStr "Username taken")])
    by reflexivity.
  reflexivity.
Defined.

(** X12.  When an attempt before the last is rejected and the re-provisioning
    fails (the post raises, or the answer cannot be read), the failure is
    swallowed: the loop goes on to the next attempt with the client, and so
    the rejected credential, unchanged. *)
Theorem create_agent_swallows_failed_reprovision :
  ∀ agent_name system_prompt model_name temperature c w k r o rest e
    attempt later,
    api_key c = PStr k → truthy (api_key c) = true →
    script w = Reply r :: o :: rest →
    unauthorized r = true →
    attempt < max_attempts - 1 →
    (o = Fails e
     ∨ ∃ u, o = Reply u ∧ _handle_response u "User creation" = Raise e) →
    create_agent_loop agent_name system_prompt model_name temperature
      (attempt :: later) c w
    = create_agent_loop agent_name system_prompt model_name temperature later c
        (after_post (user_request c (new_username w)) rest
           (drew (after_post
                    (agent_request c agent_name system_prompt model_name
                       temperature k)
                    (o :: rest) w))).
Proof.
  intros an sp mn te c w k r o rest e attempt later Hk Ht Hs
         [Hst (v & Hh & Hc)%lacks_agent_id_inv]%unauthorized_inv Hlt Ho.
  unfold create_agent_loop. rewrite for_each_cons, create_agent_attempt_unfold.
  rewrite Hk in *. rewrite Ht. cbn [negb py_strip]. cbv zeta.
  rewrite Hs, Hh, Hc, Hst. cbn [Z.eqb Pos.eqb].
  pose proof Hlt as Hlt'. apply Z.ltb_lt in Hlt'. rewrite Hlt'.
  rewrite create_user_unfold.
  unfold swallowed_unless_last.
  replace (attempt =? max_attempts - 1) with false
    by (symmetry; apply Z.eqb_neq; lia).
  cbn [drew after_post script].
  destruct Ho as [-> | (u & -> & Hu)]; [| cbv zeta; rewrite Hu]; reflexivity.
Qed.

(** X12 at a concrete input. *)
Lemma create_agent_swallows_failed_reprovision_witness :
  create_agent_loop "Agent_x" "You are a helpful AI assistant." "gpt-4"
    (PFloat 7 (-1)) [0; 1; 2] client0
    (world_of [Reply reply_401; Fails connection_refused; Reply reply_agent])
  = create_agent_loop "Agent_x" "You are a helpful AI assistant." "gpt-4"
      (PFloat 7 (-1)) [1; 2] client0
      (World [Reply reply_agent] (λ n, Z.of_nat n) 1%nat
         [Posted (agent_request client0 "Agent_x"
                    "You are a helpful AI assistant." "gpt-4" (PFloat 7 (-1))
                    "sk-0");
          Posted (user_request client0 "user_1000")]).
Proof.
  apply (create_agent_swallows_failed_reprovision "Agent_x"
           "You are a helpful AI assistant." "gpt-4" (PFloat 7 (-1)) client0
           (world_of [Reply reply_401; Fails connection_refused;
                      Reply reply_agent])
           "sk-0" reply_401 (Fails connection_refused) [Reply reply_agent]
           connection_refused 0 [1; 2]);
    try reflexivity.
  left. reflexivity.
Defined.

(** ** The constructor, [_handle_response], [create_user] and
    [create_api_key] *)

(** X1.  The constructor succeeds exactly when the environment gives a
    non-empty secret, which becomes both the stored credential and the
    OpenAI key, with no user yet; otherwise it raises the [ValueError]. *)
Theorem init_requires_secret :
  ∀ getenv url dbg,
    (∀ c, init getenv url dbg = Ok c
          ↔ ∃ s, getenv = Some s ∧ s ≠ ""
                 ∧ c = Client url (PStr s) (PStr s) PNone dbg)
    ∧ (∀ e, init getenv url dbg = Raise e
            ↔ (getenv = None ∨ getenv = Some "")
              ∧ e = Exn ValueError
                      "OPENAI_API_KEY environment variable is not set." None).
Proof.
  intros [s|] url dbg; unfold init; cbn [from_option truthy negb].
  - destruct (String.eqb_spec s "") as [->|Hne]; cbn [negb]; split.
    + intros c. split; [discriminate | intros (s' & [= <-] & Hs & _); congruence].
    + intros e. split; [intros [= <-]; auto | intros [_ ->]; reflexivity].
    + intros c. split; [intros [= <-]; eauto | intros (s' & [= <-] & _ & ->); reflexivity].
    + intros e. split; [discriminate | intros [[?|[= ->]] _]; congruence].
  - split.
    + intros c. split; [discriminate | intros (s' & ? & _); discriminate].
    + intros e. split; [intros [= <-]; auto | intros [_ ->]; reflexivity].
Qed.

(** X2.  [_handle_response] returns a value in exactly two cases: the empty
    object for a 204, whatever the body; and, for any other status and a
    non-empty body, what [response.json()] gives.  The operation name plays
    no part. *)
Theorem handle_response_success :
  ∀ r operation v,
    _handle_response r operation = Ok v
    ↔ (status_code r = 204 ∧ v = PDict ∅)
      ∨ (status_code r ≠ 204 ∧ text r ≠ "" ∧ json r = Ok v).
Proof.
  intros r op v. unfold _handle_response.
  destruct (Z.eqb_spec (status_code r) 204) as [H204|H204].
  { split; [intros [= <-]; auto | intros [[_ ->] | [? _]]; [reflexivity | contradiction]]. }
  destruct (String.eqb_spec (text r) "") as [Ht|Ht].
  { split; [discriminate | intros [[? _] | (_ & ? & _)]; contradiction]. }
  destruct (json r) as [e|v'].
  - split.
    + destruct (is_JSONDecodeError (exn_cls e)); [discriminate|].
      destruct (is_RequestException (exn_cls e)); discriminate.
    + intros [[? _] | (_ & _ & ?)]; [contradiction | discriminate].
  - split; [intros [= <-]; auto | intros [[? _] | (_ & _ & [= <-])];
      [contradiction | reflexivity]].
Qed.

(** X3.  An exception [_handle_response] raises is a plain [Exception] naming
    the operation: for an empty body, or wrapping a decode or request
    error of [response.json()] as its context.  The only other exception to
    leave it is an error of [response.json()] of neither class, which
    passes through as it is. *)
Theorem handle_response_errors :
  ∀ r operation e,
    _handle_response r operation = Raise e →
    (e = Exn Exception ("Empty response received from " +:+ operation) None
     ∧ text r = "")
    ∨ (∃ cause,
         json r = Raise cause
         ∧ (e = cause
            ∧ is_JSONDecodeError (exn_cls cause) = false
            ∧ is_RequestException (exn_cls cause) = false
            ∨ exn_cls e = Exception ∧ exn_context e = Some cause
              ∧ (is_JSONDecodeError (exn_cls cause) = true
                 ∨ is_RequestException (exn_cls cause) = true))).
Proof.
  intros r op e. unfold _handle_response.
  destruct (status_code r =? 204); [discriminate|].
  destruct (String.eqb_spec (text r) "") as [Ht|Ht]; [intros [= <-]; auto|].
  destruct (json r) as [cause|v]; [| discriminate].
  destruct (is_JSONDecodeError (exn_cls cause)) eqn:Hj.
  { intros [= <-]. right. exists cause. split; [reflexivity|]. right.
    repeat split. left. exact Hj. }
  destruct (is_RequestException (exn_cls cause)) eqn:Hr; intros [= <-];
    right; exists cause; (split; [reflexivity|]).
  - right. repeat split. right. exact Hr.
  - left. repeat split; assumption.
Qed.

(** A gateway page with status 502. *)
Lemma handle_response_errors_witness :
  let r := Response 502 "<html>Bad Gateway</html>"
             (Raise (Exn RequestsJSONDecodeError "Expecting value" None)) in
  let e := Exn Exception
             "Invalid JSON response from Agent creation: Expecting value
Raw response: <html>Bad Gateway</html>"
             (Some (Exn RequestsJSONDecodeError "Expecting value" None)) in
  (e = Exn Exception ("Empty response received from " +:+ "Agent creation") None
   ∧ text r = "")
  ∨ (∃ cause,
       json r = Raise cause
       ∧ (e = cause
          ∧ is_JSONDecodeError (exn_cls cause) = false
          ∧ is_RequestException (exn_cls cause) = false
          ∨ exn_cls e = Exception ∧ exn_context e = Some cause
            ∧ (is_JSONDecodeError (exn_cls cause) = true
               ∨ is_RequestException (exn_cls cause) = true))).
Proof.
  intros r e. apply (handle_response_errors r "Agent creation" e). reflexivity.
Defined.

(** X4.  Apart from 204, the status code plays no part in [_handle_response]:
    responses with the same body are handled alike, be their status 200,
    401 or 500. *)
Theorem handle_response_ignores_status :
  ∀ r1 r2 operation,
    status_code r1 ≠ 204 → status_code r2 ≠ 204 →
    text r1 = text r2 → json r1 = json r2 →
    _handle_response r1 operation = _handle_response r2 operation.
Proof.
  intros r1 r2 op H1%Z.eqb_neq H2%Z.eqb_neq Ht Hj.
  unfold _handle_response. rewrite H1, H2, Ht, Hj. reflexivity.
Qed.

(** X4 at a concrete input. *)
Lemma handle_response_ignores_status_witness :
  _handle_response (reply_error 200 "Internal Server Error") "User creation"
  = _handle_response (reply_error 500 "Internal Server Error") "User creation".
Proof.
  apply handle_response_ignores_status;
    [simpl; lia | simpl; lia | reflexivity | reflexivity].
Defined.

(** X5.  Whatever the service does, [create_user] posts exactly one request,
    which carries no [api-key] header; of the client it can change only
    [api_key] and [user_id], and when it fails it changes nothing. *)
Theorem create_user_posts_once_without_credential :
  ∀ username c w,
    let run := create_user username c w in
    run.2 = after_post (user_request c username) (tail (script w)) w
    ∧ header "api-key" (user_request c username) = None
    ∧ base_url run.1.2 = base_url c
    ∧ openai_api_key run.1.2 = openai_api_key c
    ∧ debug run.1.2 = debug c
    ∧ (∀ e, run.1.1 = Raise e → run.1.2 = c).
Proof.
  intros username c w run. subst run.
  destruct (create_user_frame username c w) as (r & c' & -> & Hb & Ho & Hd & Hr).
  cbn [fst snd]. do 5 (split; [first [reflexivity | assumption]|]).
  intros e He. apply (Hr e He).
Qed.

(** A user-creation request that the service never answers. *)
Lemma create_user_posts_once_without_credential_witness :
  (create_user "swarms_user_1234" client0 (world_of [Fails read_timed_out])).1.2
  = client0.
Proof.
  pose proof (create_user_posts_once_without_credential "swarms_user_1234"
                client0 (world_of [Fails read_timed_out])) as H.
  cbv zeta in H. destruct H as (_ & _ & _ & _ & _ & H).
  apply (H (user_creation_failed read_timed_out)). reflexivity.
Defined.

(** X6.  Whatever the service does, [create_api_key] posts exactly one request,
    authenticated with the stored credential as it is, and never changes
    the client: the key the service issues is returned, not stored.  What
    it returns is the parsed body; what it raises is the "Failed to create
    API key" error around the cause. *)
Theorem create_api_key_effect :
  ∀ uid c w,
    let run := create_api_key uid c w in
    run.1.2 = c
    ∧ run.2 = after_post (api_key_request c uid) (tail (script w)) w
    ∧ header "api-key" (api_key_request c uid) = Some (api_key c)
    ∧ (∀ v, run.1.1 = Ok v →
            ∃ r rest, script w = Reply r :: rest
                      ∧ _handle_response r "API key creation" = Ok v)
    ∧ (∀ e, run.1.1 = Raise e → ∃ cause, e = api_key_creation_failed cause).
Proof.
  intros uid c w run. subst run.
  unfold create_api_key, api_key_request, after_post. destruct w as [s en dr tr].
  run. cbn [tail].
  destruct s as [|[e|r] rest]; cbn [fst snd tail];
    [ do 3 (split; [reflexivity|]);
      (split; [intros ? [=] | intros ? [= <-]; eauto]) .. |].
  destruct (_handle_response r "API key creation") as [e|v] eqn:Hh;
    cbn [fst snd]; do 3 (split; [reflexivity|]).
  - split; [intros ? [=] | intros ? [= <-]; eauto].
  - split; [intros ? [= <-]; eauto | intros ? [=]].
Qed.

(** X6 at a concrete input. *)
Lemma create_api_key_effect_witness :
  ∃ r rest,
    script (world_of [Reply (json_reply 200 [("key", PStr "sk-9")])])
    = Reply r :: rest
    ∧ _handle_response r "API key creation"
      = Ok (PDict (list_to_map [("key", PStr "sk-9")])).
Proof.
  apply (create_api_key_effect "u-1" client0
           (world_of [Reply (json_reply 200 [("key", PStr "sk-9")])])).
  reflexivity.
Defined.

(** ** Credentials from one call to the next *)

(** X13.  A credential that [create_user] has just been issued is the one the
    next [create_agent] authenticates with, stripped, whatever was stored
    before; on an answer with an ['agent_id'] the two calls post one
    request each. *)
Theorem create_agent_uses_issued_credential :
  ∀ username agent_name system_prompt model_name temperature c w u r rest k d,
    script w = Reply u :: Reply r :: rest →
    issued_key u = Some k →
    _handle_response r "Agent creation" = Ok (PDict d) →
    is_Some (d !! "agent_id") →
    ∃ c' q,
      (create_user username
         ≫= λ _, create_agent agent_name system_prompt model_name temperature)
        c w
      = (Ok (PDict d), c',
         World rest (entropy w) (draws w)
           (trace w ++ [Posted (user_request c username); Posted q]))
      ∧ api_key c' = PStr k
      ∧ endpoint q = agent_url c
      ∧ header "api-key" q = Some (PStr (strip k)).
Proof.
  intros username an sp mn te c w u r rest k d Hs
         (du & Hu & Hdu & Hne)%issued_key_inv Hh Hd.
  unfold mbind, M_bind, bind. rewrite create_user_unfold, Hs. cbv zeta.
  rewrite Hu.
  assert (Hk : api_key (with_credentials c du) = PStr k)
    by (cbn [with_credentials api_key]; rewrite Hdu; reflexivity).
  unfold create_agent. rewrite range_max_attempts.
  unfold create_agent_loop. rewrite for_each_cons.
  erewrite (attempt_success an sp mn te 0 (with_credentials c du));
    [| exact Hk | exact Hne | reflexivity | exact Hh
     | exact (dict_contains d "agent_id" Hd) ].
  eexists _, _. split.
  - unfold after_post. cbn [script entropy draws trace].
    rewrite <- app_assoc. reflexivity.
  - split; [exact Hk|]. split; reflexivity.
Qed.

(** X13 on a key the service pads with a no-break space in front and an
    em space behind: the header is the bare key. *)
Lemma create_agent_uses_issued_credential_witness :
  let key := nbsp +:+ "sk-1" +:+ em_space in
  ∃ c' q,
    (create_user "swarms_user_1234"
       ≫= λ _, create_agent "Agent_x" "You are a helpful AI assistant." "gpt-4"
                 (PFloat 7 (-1)))
      (with_credentials client0 ∅)
      (world_of [Reply (reply_user key "u-1"); Reply reply_agent])
    = (Ok (PDict (list_to_map
          [("agent_id", PStr "agent-1"); ("agent_name", PStr "Agent_x")])),
       c',
       World [] (λ n, Z.of_nat n) 0%nat
         [Posted (user_request (with_credentials client0 ∅)
                    "swarms_user_1234"); Posted q])
    ∧ api_key c' = PStr key
    ∧ endpoint q = agent_url (with_credentials client0 ∅)
    ∧ header "api-key" q = Some (PStr "sk-1").
Proof.
  intros key.
  apply (create_agent_uses_issued_credential "swarms_user_1234" "Agent_x"
           "You are a helpful AI assistant." "gpt-4" (PFloat 7 (-1))
           (with_credentials client0 ∅)
           (world_of [Reply (reply_user key "u-1"); Reply reply_agent])
           (reply_user key "u-1") reply_agent [] key
           (list_to_map
              [("agent_id", PStr "agent-1"); ("agent_name", PStr "Agent_x")]));
    try reflexivity.
  vm_compute. eauto.
Defined.

(** ** What [generate_completion] returns *)

(** An attempt returns only a well-formed body without the signature, and
    the last attempt never goes on. *)
Lemma completion_attempt_returns endpoint headers body agent_id max_retries
    attempt c w :
  (∀ v,
     (generate_completion_attempt endpoint headers body agent_id max_retries
        attempt c w).1.1 = Ok (Return v) →
     well_formed_completion v = true ∧ has_not_found_signature v = false)
  ∧ (attempt = max_retries - 1 →
     (generate_completion_attempt endpoint headers body agent_id max_retries
        attempt c w).1.1 ≠ Ok Continue).
Proof.
  unfold generate_completion_attempt. run. destruct w as [s en dr tr].
  cbn [script entropy draws trace].
  destruct (Z.eqb_spec attempt (max_retries - 1)) as [Heq|Hne];
    destruct (Z.ltb_spec attempt (max_retries - 1)) as [Hlt|Hge]; try lia;
    (destruct s as [|[e|r] rest];
     [| | destruct (_handle_response r "Completion generation") as [e|v];
          [| destruct v as [| | | | | |d]; cbn [py_get];
             [| | | | | | destruct (d !! "detail") as [[| | | |t| |]|] eqn:Hd;
                          cbn [from_option id py_startswith];
                          [| | | | | | |];
                          try destruct (String.prefix not_found_signature t)
                                eqn:Hp ]]]);
    cbv beta iota; cbn [fst];
    (split; [intros v' Hv; try discriminate | intros Hl Hc; try discriminate;
                                               try contradiction]);
    try (injection Hv as <-; unfold well_formed_completion,
           has_not_found_signature; rewrite Hd; auto).
Qed.

(** A loop that ends with the last attempt returns only such a body. *)
Lemma completion_loop_returns endpoint headers body agent_id max_retries
    (attempts : list Z) :
  ∀ c w v,
    (generate_completion_loop endpoint headers body agent_id max_retries
       (attempts ++ [max_retries - 1]) c w).1.1 = Ok v →
    well_formed_completion v = true ∧ has_not_found_signature v = false.
Proof.
  unfold generate_completion_loop.
  induction attempts as [|a earlier IH]; intros c w v;
    cbn [app]; rewrite for_each_cons.
  - destruct (completion_attempt_returns endpoint headers body agent_id
                max_retries (max_retries - 1) c w) as [Hret Hlast].
    destruct (generate_completion_attempt _ _ _ _ _ _ c w)
      as [[[e|[|v']] c1] w1]; cbn [fst] in *;
      [ discriminate | destruct (Hlast eq_refl eq_refl) |].
    intros [= <-]. apply Hret. reflexivity.
  - destruct (completion_attempt_returns endpoint headers body agent_id
                max_retries a c w) as [Hret _].
    destruct (generate_completion_attempt _ _ _ _ _ _ c w)
      as [[[e|[|v']] c1] w1]; cbn [fst] in *; [ discriminate | apply IH |].
    intros [= <-]. apply Hret. reflexivity.
Qed.

(** With no attempt allowed the loop is empty. *)
Lemma generate_completion_no_attempt key agent_id prompt max_retries c w :
  max_retries ≤ 0 → truthy (api_key c) = true →
  generate_completion key agent_id prompt max_retries c w = (Ok PNone, c, w).
Proof.
  intros Hn Ht. rewrite (generate_completion_unfold _ _ _ _ _ _ Ht).
  unfold range. replace (Z.to_nat max_retries) with 0%nat by lia. reflexivity.
Qed.

(** X18.  Whatever the client and the service, a value [generate_completion]
    returns is a well-formed body without the not-found signature; the one
    exception is [None], which it returns exactly when [max_retries] allows
    no attempt. *)
Theorem generate_completion_returns_only_completions :
  ∀ key agent_id prompt max_retries c w v,
    (generate_completion key agent_id prompt max_retries c w).1.1 = Ok v →
    (max_retries ≤ 0 ∧ v = PNone)
    ∨ (0 < max_retries
       ∧ well_formed_completion v = true
       ∧ has_not_found_signature v = false).
Proof.
  intros key agent_id prompt n c w v.
  destruct (truthy (api_key c)) eqn:Ht.
  - destruct (Z_lt_le_dec 0 n) as [Hn|Hn].
    + rewrite (generate_completion_unfold _ _ _ _ _ _ Ht), (range_S n Hn).
      intros Hv. right. split; [exact Hn|].
      apply (completion_loop_returns _ _ _ _ _ _ _ _ _ Hv).
    + rewrite (generate_completion_no_attempt key agent_id prompt n c w Hn Ht).
      intros [= <-]. left. auto.
  - rewrite (generate_completion_requires_credential _ _ _ _ _ _ Ht).
    discriminate.
Qed.

(** X18 at a concrete input. *)
Lemma generate_completion_returns_only_completions_witness :
  (3 ≤ 0 ∧ PDict (list_to_map [("response", PStr "Paris"); ("metadata", PDict ∅)])
           = PNone)
  ∨ (0 < 3
     ∧ well_formed_completion
         (PDict (list_to_map [("response", PStr "Paris"); ("metadata", PDict ∅)]))
       = true
     ∧ has_not_found_signature
         (PDict (list_to_map [("response", PStr "Paris"); ("metadata", PDict ∅)]))
       = false).
Proof.
  apply (generate_completion_returns_only_completions "sk-2" "agent-1"
           "What is the capital of France?" 3 client0
           (world_of [Fails connection_refused; Reply reply_not_found;
                      Reply (reply_completion "Paris")])).
  reflexivity.
Defined.
